(** * Agriculture dashboard: the farm simulation engines

    A shallow embedding of the two simulation engines of the repository,
    [app.py] (weather driven, with a sensor network) and [simulation.py]
    (the simpler engine the dashboard runs), and the properties the
    specification states about them.

    Numbers.  Python floats and ints are modelled as exact rationals [Q]:
    rounding error of binary floating point is not represented, except in
    the one place where a discrete outcome depends on it, the number of
    sensor nodes [int(size * 1.5)], whose product is rounded to the nearest
    double ([fl64]).  Equality of numeric results is therefore stated with
    [==] (equality of the rational value), comparisons with [<] and [<=].
    The one place where the source produces a [nan] (the mean of an empty
    array in [simulation.py]) is modelled explicitly with an [option].  The
    one place where the source requires an int and refuses a float (the
    size of the moisture array in [simulation.py]) takes a [py_number].

    Randomness.  Every call of a random generator in the source is an
    explicit input of the model (a "draw").  A property that the
    specification states "for every seed" is stated for every value of the
    draws; where the support of a distribution matters, it is a hypothesis. *)

From Stdlib Require Import String QArith Qround Qminmax Qabs Qpower ZArith.
From Stdlib Require Import List Bool Lia Lqa.
Import ListNotations.

Local Open Scope Q_scope.

(** ** Exceptions *)

Inductive exn : Type :=
| ZeroDivisionError
| IndexError
| ValueError
| TypeError
| KeyError.

Inductive result (A : Type) : Type :=
| Ok (a : A)
| Raise (e : exn).

Arguments Ok {A} a.
Arguments Raise {A} e.

Definition bind {A B : Type} (r : result A) (k : A -> result B) : result B :=
  match r with
  | Ok a => k a
  | Raise e => Raise e
  end.

Notation "x <- r ;; k" := (bind r (fun x => k))
  (at level 61, r at next level, right associativity).

(** ** Python and numpy arithmetic on rationals *)

Definition Qltb (x y : Q) : bool :=
  match x ?= y with
  | Lt => true
  | _ => false
  end.

Definition Qleb (x y : Q) : bool :=
  match x ?= y with
  | Gt => false
  | _ => true
  end.

Definition Qeqb (x y : Q) : bool :=
  match x ?= y with
  | Eq => true
  | _ => false
  end.

(** Python's [a / b] on numbers. *)
Definition py_div (a b : Q) : result Q :=
  if Qeqb b 0 then Raise ZeroDivisionError else Ok (a / b).

(** Python's [int(x)]: truncation toward zero. *)
Definition py_int (x : Q) : Z :=
  if Qltb x 0 then Qceiling x else Qfloor x.

(** Rounding to the nearest integer, ties to the even one: Python's
    [round(x)] and numpy's [rint]. *)
Definition rint (x : Q) : Z :=
  let f := Qfloor x in
  match ((x - inject_Z f) ?= (1 # 2))%Q with
  | Lt => f
  | Gt => (f + 1)%Z
  | Eq => if Z.even f then f else (f + 1)%Z
  end.

(** numpy's [np.round(x, 1)]: scale by ten, [rint], scale back. *)
Definition np_round1 (x : Q) : Q := inject_Z (rint (x * 10)) / 10.

(** Python's [seq[i]]: a negative index counts from the end. *)
Definition py_getitem {A : Type} (l : list A) (i : Z) : result A :=
  let n := Z.of_nat (length l) in
  let j := if (i <? 0)%Z then (n + i)%Z else i in
  if ((0 <=? j) && (j <? n))%Z
  then match nth_error l (Z.to_nat j) with
       | Some a => Ok a
       | None => Raise IndexError
       end
  else Raise IndexError.

Definition Qsum (l : list Q) : Q := fold_right Qplus 0 l.

(** The value of [np.mean] on a non-empty sequence. *)
Definition mean_val (l : list Q) : Q := Qsum l / inject_Z (Z.of_nat (length l)).

(** [np.mean]: [None] stands for the [nan] numpy returns on an empty array. *)
Definition np_mean (l : list Q) : option Q :=
  match l with
  | [] => None
  | _ => Some (mean_val l)
  end.

(** [np.var]: the mean of the squared deviations from the mean. *)
Definition var_val (l : list Q) : Q :=
  let m := mean_val l in
  mean_val (map (fun x => (x - m) * (x - m)) l).

(** [np.clip(x, lo, hi)]. *)
Definition np_clip (x lo hi : Q) : Q := Qmin (Qmax x lo) hi.

(** ** Ints and floats *)

(** A Python number as a function receives it: an int or a float.  A
    literal without a mark is an int. *)
Inductive py_number : Type :=
| PyInt (n : Z)
| PyFloat (x : Q).

Coercion PyInt : Z >-> py_number.
Bind Scope Z_scope with py_number.

(** [2 ** e]. *)
Definition pow2 (e : Z) : Q := 2 ^ e.

(** The binary exponent of a positive rational: the [e] with
    [2 ** e <= a < 2 ** (e + 1)]. *)
Definition Qlog2 (a : Q) : Z :=
  let e := (Z.log2 (Qnum a) - Z.log2 (Zpos (Qden a)))%Z in
  if Qltb a (pow2 e) then (e - 1)%Z else e.

(** The double nearest to [x], ties to the even significand (53 bits): the
    rounding of every float operation and of the conversion of an int to a
    float.  The exponent range is not bounded: a result beyond 1.8e308,
    which is [inf] in the source, and the subnormal numbers below 2.2e-308
    are outside the model. *)
Definition fl64 (x : Q) : Q :=
  if Qeqb x 0 then 0
  else
    let ulp := pow2 (Qlog2 (Qabs x) - 52) in
    Qred (inject_Z (rint (x / ulp)) * ulp).

(** Python's [round(x, ndigits)]: scale by a power of ten, round to the
    nearest integer with ties to the even one, scale back. *)
Definition py_round (x : Q) (ndigits : nat) : Q :=
  let scale := inject_Z (10 ^ Z.of_nat ndigits) in
  inject_Z (rint (x * scale)) / scale.

(** * The weather-driven engine: [app.py] *)

Module App.

(** ** Data model *)

(** The sensor types are the three string literals of [initialize_network]. *)
Inductive SensorType : Type :=
| soil_moisture_sensor
| nutrient_sensor
| pest_sensor.

(** A three-component array: [np.random.uniform(lo, hi, 3)]. *)
Definition Vec3 : Type := (Q * Q * Q)%type.

Definition vec3_list (v : Vec3) : list Q :=
  let '(a, b, c) := v in [a; b; c].

Definition vec3_map (g : Q -> Q) (v : Vec3) : Vec3 :=
  let '(a, b, c) := v in (g a, g b, g c).

Definition vec3_mean (v : Vec3) : Q := mean_val (vec3_list v).

(** [SensorNode]; the back reference [farm] is passed to [measure] as an
    argument. *)
Record SensorNode : Type := mkNode {
  node_id : nat;
  sensor_type : SensorType;
  position : Q * Q * Q;
  battery : Q;
  operational : bool
}.

(** One row of the weather data frame. *)
Record Weather : Type := mkWeather {
  day : Z;
  temperature : Q;
  rainfall : Q;
  evapotranspiration : Q
}.

(** The dict [soil_nutrients], keys ['N'], ['P'], ['K']. *)
Record Nutrients : Type := mkNutrients {
  nutr_N : Q;
  nutr_P : Q;
  nutr_K : Q
}.

(** The dict [costs], keys in insertion order. *)
Record Costs : Type := mkCosts {
  cost_system : Q;
  cost_water : Q;
  cost_fertilizer : Q;
  cost_labor : Q
}.

(** [VirtualFarm].  [current_date] is the number of days since [start_date];
    [sensor_network] holds the nodes of the farm's [SensorNetwork]. *)
Record VirtualFarm : Type := mkFarm {
  size : Q;
  crop : string;
  soil : string;
  days : Z;
  current_date : Z;
  day_counter : Z;
  soil_moisture : Vec3;
  soil_nutrients : Nutrients;
  crop_growth_stage : Q;
  pest_pressure : Q;
  weather : list Weather;
  irrigation_applied : Q;
  fertilizer_applied : Q;
  water_used : Q;
  yield_kg : Q;
  costs : Costs;
  revenue : Q;
  sensor_network : list SensorNode
}.

(** Assignments to one attribute. *)
Definition set_current_date (f : VirtualFarm) (v : Z) : VirtualFarm :=
  mkFarm (size f) (crop f) (soil f) (days f) v (day_counter f)
    (soil_moisture f) (soil_nutrients f) (crop_growth_stage f)
    (pest_pressure f) (weather f) (irrigation_applied f)
    (fertilizer_applied f) (water_used f) (yield_kg f) (costs f) (revenue f)
    (sensor_network f).

Definition set_day_counter (f : VirtualFarm) (v : Z) : VirtualFarm :=
  mkFarm (size f) (crop f) (soil f) (days f) (current_date f) v
    (soil_moisture f) (soil_nutrients f) (crop_growth_stage f)
    (pest_pressure f) (weather f) (irrigation_applied f)
    (fertilizer_applied f) (water_used f) (yield_kg f) (costs f) (revenue f)
    (sensor_network f).

Definition set_soil_moisture (f : VirtualFarm) (v : Vec3) : VirtualFarm :=
  mkFarm (size f) (crop f) (soil f) (days f) (current_date f) (day_counter f)
    v (soil_nutrients f) (crop_growth_stage f)
    (pest_pressure f) (weather f) (irrigation_applied f)
    (fertilizer_applied f) (water_used f) (yield_kg f) (costs f) (revenue f)
    (sensor_network f).

Definition set_soil_nutrients (f : VirtualFarm) (v : Nutrients) : VirtualFarm :=
  mkFarm (size f) (crop f) (soil f) (days f) (current_date f) (day_counter f)
    (soil_moisture f) v (crop_growth_stage f)
    (pest_pressure f) (weather f) (irrigation_applied f)
    (fertilizer_applied f) (water_used f) (yield_kg f) (costs f) (revenue f)
    (sensor_network f).

Definition set_crop_growth_stage (f : VirtualFarm) (v : Q) : VirtualFarm :=
  mkFarm (size f) (crop f) (soil f) (days f) (current_date f) (day_counter f)
    (soil_moisture f) (soil_nutrients f) v
    (pest_pressure f) (weather f) (irrigation_applied f)
    (fertilizer_applied f) (water_used f) (yield_kg f) (costs f) (revenue f)
    (sensor_network f).

Definition set_pest_pressure (f : VirtualFarm) (v : Q) : VirtualFarm :=
  mkFarm (size f) (crop f) (soil f) (days f) (current_date f) (day_counter f)
    (soil_moisture f) (soil_nutrients f) (crop_growth_stage f)
    v (weather f) (irrigation_applied f)
    (fertilizer_applied f) (water_used f) (yield_kg f) (costs f) (revenue f)
    (sensor_network f).

Definition set_irrigation_applied (f : VirtualFarm) (v : Q) : VirtualFarm :=
  mkFarm (size f) (crop f) (soil f) (days f) (current_date f) (day_counter f)
    (soil_moisture f) (soil_nutrients f) (crop_growth_stage f)
    (pest_pressure f) (weather f) v
    (fertilizer_applied f) (water_used f) (yield_kg f) (costs f) (revenue f)
    (sensor_network f).

Definition set_fertilizer_applied (f : VirtualFarm) (v : Q) : VirtualFarm :=
  mkFarm (size f) (crop f) (soil f) (days f) (current_date f) (day_counter f)
    (soil_moisture f) (soil_nutrients f) (crop_growth_stage f)
    (pest_pressure f) (weather f) (irrigation_applied f)
    v (water_used f) (yield_kg f) (costs f) (revenue f)
    (sensor_network f).

Definition set_water_used (f : VirtualFarm) (v : Q) : VirtualFarm :=
  mkFarm (size f) (crop f) (soil f) (days f) (current_date f) (day_counter f)
    (soil_moisture f) (soil_nutrients f) (crop_growth_stage f)
    (pest_pressure f) (weather f) (irrigation_applied f)
    (fertilizer_applied f) v (yield_kg f) (costs f) (revenue f)
    (sensor_network f).

Definition set_yield_kg (f : VirtualFarm) (v : Q) : VirtualFarm :=
  mkFarm (size f) (crop f) (soil f) (days f) (current_date f) (day_counter f)
    (soil_moisture f) (soil_nutrients f) (crop_growth_stage f)
    (pest_pressure f) (weather f) (irrigation_applied f)
    (fertilizer_applied f) (water_used f) v (costs f) (revenue f)
    (sensor_network f).

Definition set_costs (f : VirtualFarm) (v : Costs) : VirtualFarm :=
  mkFarm (size f) (crop f) (soil f) (days f) (current_date f) (day_counter f)
    (soil_moisture f) (soil_nutrients f) (crop_growth_stage f)
    (pest_pressure f) (weather f) (irrigation_applied f)
    (fertilizer_applied f) (water_used f) (yield_kg f) v (revenue f)
    (sensor_network f).

Definition set_revenue (f : VirtualFarm) (v : Q) : VirtualFarm :=
  mkFarm (size f) (crop f) (soil f) (days f) (current_date f) (day_counter f)
    (soil_moisture f) (soil_nutrients f) (crop_growth_stage f)
    (pest_pressure f) (weather f) (irrigation_applied f)
    (fertilizer_applied f) (water_used f) (yield_kg f) (costs f) v
    (sensor_network f).

Definition set_sensor_network (f : VirtualFarm) (v : list SensorNode)
  : VirtualFarm :=
  mkFarm (size f) (crop f) (soil f) (days f) (current_date f) (day_counter f)
    (soil_moisture f) (soil_nutrients f) (crop_growth_stage f)
    (pest_pressure f) (weather f) (irrigation_applied f)
    (fertilizer_applied f) (water_used f) (yield_kg f) (costs f) (revenue f)
    v.

(** ** Random draws *)

(** The draws one node consumes in one [collect_data]: [random.uniform(0.1,
    0.5)] for the battery, [random.random()] for the spontaneous fault,
    [random.gauss] for the reading, [random.random()] for the repair. *)
Record NodeDraws : Type := mkNodeDraws {
  battery_drain : Q;
  fault_roll : Q;
  reading_noise : Q;
  repair_roll : Q
}.

(** The draws of one [advance_day]: [np.random.normal(0, 0.2)] of
    [update_soil_moisture], and the draws of each node by its place in the
    network. *)
Record TickDraws : Type := mkTickDraws {
  moisture_noise : Q;
  node_draws : nat -> NodeDraws
}.

(** [random.choice] on a three-element list returns one of its places. *)
Inductive Pick3 : Type :=
| Pick0
| Pick1
| Pick2.

Definition choice {A : Type} (p : Pick3) (a b c : A) : A :=
  match p with
  | Pick0 => a
  | Pick1 => b
  | Pick2 => c
  end.

(** The draws of one node at [initialize_network]: the depth picked and the
    two [random.uniform(0, size ** 0.5)] coordinates. *)
Record NodeInit : Type := mkNodeInit {
  depth_pick : Pick3;
  pos_x : Q;
  pos_y : Q
}.

(** The draws of [__init__]: the three unit-interval samples behind
    [np.random.uniform(lo, hi, 3)], the [np.random.weibull(0.8, days)] and
    [np.random.normal(2, 0.5, days)] samples by day, the nodes' draws. *)
Record InitDraws : Type := mkInitDraws {
  soil_unit : Vec3;
  weibull_sample : nat -> Q;
  normal_sample : nat -> Q;
  node_init : nat -> NodeInit
}.

(** ** Construction *)

(** [np.random.uniform(lo, hi, 3)] from three unit-interval samples. *)
Definition uniform3 (lo hi : Q) (u : Vec3) : Vec3 :=
  vec3_map (fun x => lo + (hi - lo) * x) u.

Definition initialize_soil_moisture (soil : string) (u : Vec3) : Vec3 :=
  if String.eqb soil "sandy" then uniform3 15 25 u
  else if String.eqb soil "clay" then uniform3 30 40 u
  else uniform3 20 30 u.

(** [a[lo:hi] = v] on an array of zeros, read at place [i]. *)
Definition window (lo hi : Z) (v : Q) (i : Z) : Q :=
  if ((lo <=? i) && (i <? hi))%Z then v else 0.

(** The round-robin list of [initialize_network]. *)
Definition sensor_cycle (i : nat) : SensorType :=
  nth (i mod 3) [soil_moisture_sensor; nutrient_sensor; pest_sensor]
    soil_moisture_sensor.

(** [SensorNode.__init__] inside the loop of [initialize_network]. *)
Definition new_node (d : InitDraws) (i : nat) : SensorNode :=
  let depth := choice (depth_pick (node_init d i)) (1 # 10) (3 # 10) (6 # 10) in
  mkNode i (sensor_cycle i)
    (pos_x (node_init d i), pos_y (node_init d i), depth) 100 true.

(** [SensorNetwork.initialize_network]: the product [self.farm.size * 1.5]
    is a float product, of the size as a float ([fl64 size] is [size] when
    the size is a float already) and of 1.5, rounded to the nearest double;
    [range(node_count)] is empty when [node_count] is not positive. *)
Definition initialize_network (size : Q) (d : InitDraws) : list SensorNode :=
  let node_count := py_int (fl64 (fl64 size * (3 # 2))) in
  map (new_node d) (seq 0 (Z.to_nat node_count)).

Section Weather.

(** [np.sin] and [np.pi]. *)
Variable np_sin : Q -> Q.
Variable np_pi : Q.

(** The weather row of day [i].  The evapotranspiration is computed from the
    temperature before the heat wave is added to it, as in the source. *)
Definition weather_row (crop : string) (days : Z) (d : InitDraws) (i : nat)
  : Weather :=
  let di := Z.of_nat i in
  let temperature0 := 15 + 10 * np_sin (2 * np_pi * inject_Z di / inject_Z days) in
  let rainfall0 := Qmax 0 (5 * weibull_sample d i) in
  let evapotranspiration := (1 # 2) * temperature0 + normal_sample d i in
  let wheat := String.eqb crop "wheat" in
  let temperature :=
    if wheat then temperature0 + window 40 45 8 di else temperature0 in
  let rainfall :=
    if wheat then Qmax 0 (rainfall0 + window 60 80 (- (7 # 10)) di)
    else rainfall0 in
  mkWeather di (np_round1 temperature) (np_round1 rainfall)
    (np_round1 evapotranspiration).

(** [generate_weather_profile]: numpy refuses a negative number of samples
    ("negative dimensions are not allowed", a [ValueError]). *)
Definition generate_weather_profile (crop : string) (days : Z) (d : InitDraws)
  : result (list Weather) :=
  if (days <? 0)%Z then Raise ValueError
  else Ok (map (weather_row crop days d) (seq 0 (Z.to_nat days))).

(** [VirtualFarm.__init__], with [start_date] at its default.  The
    constructor has no check of its arguments. *)
Definition create (size_ha : Q) (crop_type soil_type : string)
  (simulation_days : Z) (d : InitDraws) : result VirtualFarm :=
  w <- generate_weather_profile crop_type simulation_days d ;;
  Ok (mkFarm size_ha crop_type soil_type simulation_days 0%Z 0%Z
        (initialize_soil_moisture soil_type (soil_unit d))
        (mkNutrients 50 30 40) 0 0 w 0 0 0 0 (mkCosts 0 0 0 0) 0
        (initialize_network size_ha d)).

End Weather.

(** ** Soil, crop and pest updates *)

(** [depletion] of [update_soil_moisture]. *)
Definition depletion (w : Weather) (noise : Q) : Q :=
  (7 # 10) * evapotranspiration w + noise.

Definition update_soil_moisture (f : VirtualFarm) (w : Weather) (noise : Q)
  : VirtualFarm :=
  let depletion := depletion w noise in
  let rainfall_effect := (6 # 10) * rainfall w in
  let f1 :=
    set_soil_moisture f
      (vec3_map (fun m => Qmax 0 (m - depletion + rainfall_effect))
         (soil_moisture f)) in
  set_water_used f1 (water_used f1 + depletion).

(** [stress_factor] of [update_crop_growth]. *)
Definition stress_factor (w : Weather) : Q :=
  1 - Qmax 0 (temperature w - 30) / 20.

(** [growth] of [update_crop_growth]. *)
Definition daily_growth (f : VirtualFarm) (w : Weather) : Q :=
  let base_growth := (8 # 1000) * Qmin (temperature w) 30 / 30 in
  let moisture_factor := vec3_mean (soil_moisture f) / 30 in
  let growth := base_growth * moisture_factor in
  let growth := if Qltb 32 (temperature w) then growth * (7 # 10) else growth in
  if Qltb (vec3_mean (soil_moisture f)) 15 then growth * (5 # 10) else growth.

Definition update_crop_growth (f : VirtualFarm) (w : Weather) : VirtualFarm :=
  let growth := daily_growth f w in
  let f1 := set_crop_growth_stage f (Qmin 1 (crop_growth_stage f + growth)) in
  if Qleb (95 # 100) (crop_growth_stage f1)
  then set_yield_kg f1 (size f1 * 5000 * stress_factor w)
  else f1.

Definition update_pest_pressure (f : VirtualFarm) (w : Weather) : VirtualFarm :=
  let base_growth := (5 # 100) * temperature w / 25 in
  let humidity_factor :=
    1 + (if Qltb 5 (rainfall w) then 1 else 0) * (3 # 10) in
  let f1 :=
    set_pest_pressure f
      (Qmin 1 (pest_pressure f * (1 + base_growth) * humidity_factor)) in
  set_pest_pressure f1 (pest_pressure f1 * (95 # 100)).

(** ** Sensor network *)

(** The index [depth//10 - 1] of [measure], with [depth =
    int(self.position[2]*10)]. *)
Definition band_index (n : SensorNode) : Z :=
  let depth := py_int (snd (position n) * 10) in
  (depth / 10 - 1)%Z.

(** [SensorNode.measure]: the node after the call and the value returned
    ([None] is Python's [None]). *)
Definition measure (farm : VirtualFarm) (n : SensorNode) (d : NodeDraws)
  : result (SensorNode * option Q) :=
  if negb (operational n) then Ok (n, None)
  else
    let n1 := mkNode (node_id n) (sensor_type n) (position n)
                (battery n - battery_drain d) (operational n) in
    if Qltb (fault_roll d) (5 # 1000)
    then Ok (mkNode (node_id n1) (sensor_type n1) (position n1) (battery n1)
               false, None)
    else
      match sensor_type n1 with
      | soil_moisture_sensor =>
          true_value <-
            py_getitem (vec3_list (soil_moisture farm)) (band_index n1) ;;
          Ok (n1, Some (Qmax 0 (true_value + reading_noise d)))
      | nutrient_sensor =>
          Ok (n1, Some (Qmax 0 (nutr_N (soil_nutrients farm) + reading_noise d)))
      | pest_sensor =>
          Ok (n1, Some (Qmax 0 (Qmin 100 (pest_pressure farm * 100
                                          + reading_noise d))))
      end.

Definition maintain (n : SensorNode) : SensorNode :=
  mkNode (node_id n) (sensor_type n) (position n) 100 true.

(** The dict [measurements] of [collect_data]. *)
Record Measurements : Type := mkMeasurements {
  m_soil_moisture : list Q;
  m_nutrient : list Q;
  m_pest : list Q
}.

Definition record_value (m : Measurements) (t : SensorType) (v : Q)
  : Measurements :=
  match t with
  | soil_moisture_sensor =>
      mkMeasurements (m_soil_moisture m ++ [v]) (m_nutrient m) (m_pest m)
  | nutrient_sensor =>
      mkMeasurements (m_soil_moisture m) (m_nutrient m ++ [v]) (m_pest m)
  | pest_sensor =>
      mkMeasurements (m_soil_moisture m) (m_nutrient m) (m_pest m ++ [v])
  end.

(** The dict [collect_data] returns. *)
Record SensorData : Type := mkSensorData {
  soil_moisture_avg : Q;
  soil_moisture_var : Q;
  soil_N : Q;
  sd_pest_pressure : Q
}.

(** The loop of [collect_data] from the node at place [i] on: the nodes after
    the loop and the measurements gathered. *)
Fixpoint collect_loop (farm : VirtualFarm) (draws : nat -> NodeDraws) (i : nat)
  (nodes : list SensorNode) (m : Measurements)
  : result (list SensorNode * Measurements) :=
  match nodes with
  | [] => Ok ([], m)
  | node :: rest =>
      r <- measure farm node (draws i) ;;
      let m1 :=
        match snd r with
        | Some value => record_value m (sensor_type (fst r)) value
        | None => m
        end in
      let node1 :=
        if Qltb (repair_roll (draws i)) (5 # 100) && negb (operational (fst r))
        then maintain (fst r) else fst r in
      r' <- collect_loop farm draws (S i) rest m1 ;;
      Ok (node1 :: fst r', snd r')
  end.

Definition summarize (m : Measurements) : SensorData :=
  mkSensorData
    (match m_soil_moisture m with [] => 0 | l => mean_val l end)
    (match m_soil_moisture m with [] => 0 | l => var_val l end)
    (match m_nutrient m with [] => 0 | l => mean_val l end)
    (match m_pest m with [] => 0 | l => mean_val l / 100 end).

(** [SensorNetwork.collect_data]: the farm with its nodes updated, and the
    aggregate. *)
Definition collect_data (farm : VirtualFarm) (draws : nat -> NodeDraws)
  : result (VirtualFarm * SensorData) :=
  r <- collect_loop farm draws 0 (sensor_network farm)
         (mkMeasurements [] [] []) ;;
  Ok (set_sensor_network farm (fst r), summarize (snd r)).

(** [SensorNetwork.calculate_uptime]. *)
Definition calculate_uptime (nodes : list SensorNode) : result Q :=
  let up := List.length (filter operational nodes) in
  q <- py_div (inject_Z (Z.of_nat up)) (inject_Z (Z.of_nat (List.length nodes))) ;;
  Ok (q * 100).

(** ** Decisions, actions, economics *)

Record Decisions : Type := mkDecisions {
  irrigate : bool;
  irrigation_amount : Q;
  fertilize : bool;
  fertilizer_amount : Q;
  apply_pesticide : bool
}.

(** [decision_engine]; the locals [crop_coeff] and [etc] of the source are
    computed and never used. *)
Definition decision_engine (f : VirtualFarm) (sensor_data : SensorData)
  (w : Weather) : Decisions :=
  let deficit := Qmax 0 (25 - soil_moisture_avg sensor_data) in
  let irr := Qltb 5 deficit in
  let growth_stage := crop_growth_stage f in
  let n_def := Qmax 0 ((40 - soil_N sensor_data) * growth_stage) in
  let fert :=
    Qltb 5 n_def && (Qltb (2 # 10) growth_stage && Qltb growth_stage (8 # 10)) in
  mkDecisions
    irr (if irr then Qmin (deficit * (12 # 10)) 10 else 0)
    fert (if fert then Qmin (n_def * 2) 20 else 0)
    (Qltb (4 # 10) (sd_pest_pressure sensor_data)).

Definition execute_actions (f : VirtualFarm) (d : Decisions) : VirtualFarm :=
  let f1 :=
    if irrigate d then
      let irrigation := irrigation_amount d in
      let g1 := set_soil_moisture f
                  (vec3_map (fun m => m + irrigation * (8 # 10))
                     (soil_moisture f)) in
      let g2 := set_irrigation_applied g1 (irrigation_applied g1 + irrigation) in
      set_water_used g2 (water_used g2 + irrigation)
    else f in
  let f2 :=
    if fertilize d then
      let fertilizer := fertilizer_amount d in
      let g1 := set_soil_nutrients f1
                  (mkNutrients
                     (nutr_N (soil_nutrients f1) + fertilizer * (7 # 10))
                     (nutr_P (soil_nutrients f1)) (nutr_K (soil_nutrients f1))) in
      set_fertilizer_applied g1 (fertilizer_applied g1 + fertilizer)
    else f1 in
  if apply_pesticide d
  then set_pest_pressure f2 (pest_pressure f2 * (3 # 10))
  else f2.

Definition update_economics (f : VirtualFarm) : result VirtualFarm :=
  labor <- py_div 20 (inject_Z (days f)) ;;
  let c := costs f in
  let f1 :=
    set_costs f
      (mkCosts (3500 / (365 * 5))
         (cost_water c + irrigation_applied f * (5 # 100))
         (cost_fertilizer c + fertilizer_applied f * (12 # 10))
         (cost_labor c + labor)) in
  Ok (if (day_counter f1 =? days f1 - 1)%Z
      then set_revenue f1 (yield_kg f1 * (3 # 10))
      else f1).

(** [sum(self.costs.values())]. *)
Definition costs_sum (c : Costs) : Q :=
  0 + cost_system c + cost_water c + cost_fertilizer c + cost_labor c.

Definition total_cost (f : VirtualFarm) : Q :=
  costs_sum (costs f) * inject_Z (days f).

Definition net_benefit (f : VirtualFarm) : Q := revenue f - total_cost f.

Definition calculate_roi (f : VirtualFarm) : result Q :=
  if Qltb 0 (total_cost f)
  then q <- py_div (net_benefit f) (total_cost f) ;; Ok (q * 100)
  else Ok 0.

(** ** The day step *)

(** The body of [advance_day] below its guard. *)
Definition tick (f : VirtualFarm) (d : TickDraws) : result VirtualFarm :=
  today <- py_getitem (weather f) (day_counter f) ;;
  let f1 := update_soil_moisture f today (moisture_noise d) in
  let f2 := update_crop_growth f1 today in
  let f3 := update_pest_pressure f2 today in
  r <- collect_data f3 (node_draws d) ;;
  let decisions := decision_engine (fst r) (snd r) today in
  let f4 := execute_actions (fst r) decisions in
  f5 <- update_economics f4 ;;
  let f6 := set_day_counter f5 (day_counter f5 + 1)%Z in
  Ok (set_current_date f6 (current_date f6 + 1)%Z).

Definition advance_day (f : VirtualFarm) (d : TickDraws)
  : result (VirtualFarm * bool) :=
  if (days f <=? day_counter f)%Z then Ok (f, false)
  else f' <- tick f d ;; Ok (f', true).

(** [n] calls of [advance_day], the [k]-th with the draws [draws k]. *)
Fixpoint run (n : nat) (f : VirtualFarm) (draws : nat -> TickDraws)
  : result VirtualFarm :=
  match n with
  | O => Ok f
  | S k => f' <- run k f draws ;; r <- advance_day f' (draws k) ;; Ok (fst r)
  end.

(** ** Report and driver *)

(** The dict [generate_report] returns. *)
Record Report : Type := mkReport {
  water_used_m3 : Q;
  water_savings : Q;
  fertilizer_used_kg : Q;
  fertilizer_savings : Q;
  report_yield_kg : Q;
  yield_increase : Q;
  report_total_cost : Q;
  report_revenue : Q;
  roi : Q;
  sensor_uptime : Q
}.

(** [generate_report].  The three quotients by a multiple of [size] are
    modelled with Python's division; on a farm of size zero the source
    raises only while the numerator is still a Python number (before the
    first day step), so the properties of this function are stated for a
    size that is not zero. *)
Definition generate_report (f : VirtualFarm) : result Report :=
  q_water <- py_div (water_used f) (size f * 600) ;;
  let water_savings := 1 - q_water in
  q_fertilizer <- py_div (fertilizer_applied f) (size f * 150) ;;
  let fertilizer_savings := 1 - q_fertilizer in
  q_yield <- py_div (yield_kg f) (size f * 4000) ;;
  r <- calculate_roi f ;;
  uptime <- calculate_uptime (sensor_network f) ;;
  Ok (mkReport
        (py_round (water_used f * size f * 10) 1)
        (py_round (water_savings * 100) 1)
        (py_round (fertilizer_applied f) 1)
        (py_round (fertilizer_savings * 100) 1)
        (py_round (yield_kg f) 1)
        (py_round ((q_yield - 1) * 100) 1)
        (py_round (total_cost f) 2)
        (py_round (revenue f) 2)
        (py_round r 1)
        (py_round uptime 1)).

(** One dict of [daily_data] in [run_simulation]. *)
Record DailyRow : Type := mkDailyRow {
  row_day : Z;
  row_soil_moisture : Q;
  row_soil_N : Q;
  row_pest_pressure : Q;
  row_crop_growth : Q;
  row_water_used : Q;
  row_irrigation : Q;
  row_fertilizer : Q
}.

Definition daily_row (f : VirtualFarm) : DailyRow :=
  mkDailyRow (day_counter f) (vec3_mean (soil_moisture f))
    (nutr_N (soil_nutrients f)) (pest_pressure f) (crop_growth_stage f)
    (water_used f) (irrigation_applied f) (fertilizer_applied f).

(** The loop [while farm.advance_day(): daily_data.append(...)] of
    [run_simulation], from the [k]-th call on, with at most [fuel] calls:
    the farm and the rows when the loop ends, [None] when the calls run
    out. *)
Fixpoint simulation_loop (fuel : nat) (f : VirtualFarm)
  (draws : nat -> TickDraws) (k : nat) (daily_data : list DailyRow)
  : result (option (VirtualFarm * list DailyRow)) :=
  match fuel with
  | O => Ok None
  | S fuel' =>
      r <- advance_day f (draws k) ;;
      if snd r
      then simulation_loop fuel' (fst r) draws (S k)
             (daily_data ++ [daily_row (fst r)])
      else Ok (Some (fst r, daily_data))
  end.

(** [plot_results] on [pd.DataFrame(daily_data)]: the frame of an empty
    list has no column, and the first [data['day']] raises a [KeyError];
    with at least one row every column read is there.  The drawing and the
    file written are outside the model. *)
Definition plot_results (daily_data : list DailyRow) : result unit :=
  match daily_data with
  | [] => Raise KeyError
  | _ => Ok tt
  end.

Section Driver.

Variable np_sin : Q -> Q.
Variable np_pi : Q.

(** [run_simulation], without its printing: the report it returns, together
    with the daily rows it has handed to [plot_results]. *)
Definition run_simulation (fuel : nat) (farm_size : Q) (crop_type : string)
  (duration : Z) (d : InitDraws) (draws : nat -> TickDraws)
  : result (option (Report * list DailyRow)) :=
  farm <- create np_sin np_pi farm_size crop_type "loam" duration d ;;
  r <- simulation_loop fuel farm draws 0 [] ;;
  match r with
  | None => Ok None
  | Some (farm', daily_data) =>
      report <- generate_report farm' ;;
      _ <- plot_results daily_data ;;
      Ok (Some (report, daily_data))
  end.

End Driver.

End App.

(** * The simpler engine: [simulation.py] *)

Module Simulation.

(** ** Data model *)

Record Nutrients : Type := mkNutrients {
  nutr_N : Q;
  nutr_P : Q;
  nutr_K : Q
}.

(** One entry of [daily_logs].  [log_soil_moisture] is [avg_moisture], which
    is [nan] ([None]) on a farm with an empty moisture array. *)
Record LogEntry : Type := mkLogEntry {
  log_day : Z;
  log_soil_moisture : option Q;
  log_soil_N : Q;
  log_pest_pressure : Q;
  log_crop_growth : Q;
  log_water_used : Q;
  log_irrigation : Q;
  log_fertilizer : Q
}.

(** [VirtualFarm]: [size] is the length of the moisture array, an int. *)
Record VirtualFarm : Type := mkFarm {
  size : Z;
  crop_type : string;
  simulation_days : Z;
  day_counter : Z;
  soil_moisture : list Q;
  soil_nutrients : Nutrients;
  pest_pressure : Q;
  crop_growth_stage : Q;
  water_used : Q;
  fertilizer_applied : Q;
  irrigation_applied : Q;
  daily_logs : list LogEntry
}.

(** ** Random draws *)

(** The draws of one [simulate_day]: [np.random.uniform(0.01, 0.03)],
    [np.random.choice([0, 0.01, 0.05, 0.1], p=...)] and
    [np.random.uniform(-0.01, 0.02)]. *)
Record DayDraws : Type := mkDayDraws {
  evapotranspiration : Q;
  rainfall : Q;
  pest_change : Q
}.

(** ** Construction *)

(** [VirtualFarm.__init__]: [moisture k] is the [k]-th sample of
    [np.random.uniform(0.2, 0.5, size=(size,))]; numpy refuses a size that
    is a float, whatever its value, with a [TypeError] ("'float' object
    cannot be interpreted as an integer") and a negative size with a
    [ValueError].  The constructor has no check of its own. *)
Definition create (size_ha : py_number) (crop_type : string)
  (simulation_days : Z) (moisture : nat -> Q) : result VirtualFarm :=
  match size_ha with
  | PyFloat _ => Raise TypeError
  | PyInt size_ha =>
      if (size_ha <? 0)%Z then Raise ValueError
      else Ok (mkFarm size_ha crop_type simulation_days 0%Z
                 (map moisture (seq 0 (Z.to_nat size_ha)))
                 (mkNutrients 50 30 40) (1 # 10) 0 0 0 0 [])
  end.

(** The support of [np.random.uniform(0.2, 0.5)]. *)
Definition moisture_in_support (m : Q) : Prop := 2 # 10 <= m /\ m <= 5 # 10.

(** ** The day step *)

(** [simulate_day]: the farm after the call and the value returned.  With an
    empty moisture array [avg_moisture] is [nan]: the comparison with 0.25
    is false, and [min(1.0, nan)] is [1.0]. *)
Definition simulate_day (f : VirtualFarm) (d : DayDraws) : VirtualFarm * bool :=
  let avg_moisture := np_mean (soil_moisture f) in
  let dry :=
    match avg_moisture with
    | Some a => Qltb a (25 # 100)
    | None => false
    end in
  let irrigation := if dry then 5 # 100 else 0 in
  let soil_moisture1 :=
    if dry then map (fun m => m + irrigation) (soil_moisture f)
    else soil_moisture f in
  let irrigation_applied1 :=
    if dry then irrigation_applied f + irrigation * inject_Z (size f)
    else irrigation_applied f in
  let water_used1 :=
    if dry then water_used f + irrigation * inject_Z (size f)
    else water_used f in
  let soil_moisture2 :=
    map (fun m => np_clip (m + (rainfall d - evapotranspiration d)) 0 1)
      soil_moisture1 in
  let nutrient_uptake := (3 # 10) * crop_growth_stage f in
  let n1 := Qmax 0 (nutr_N (soil_nutrients f) - nutrient_uptake) in
  let low := Qltb n1 20 in
  let n2 := if low then n1 + 10 else n1 in
  let fertilizer_applied1 :=
    if low then fertilizer_applied f + 10 else fertilizer_applied f in
  let pest_pressure1 := np_clip (pest_pressure f + pest_change d) 0 1 in
  let crop_growth_stage1 :=
    match avg_moisture with
    | Some a =>
        let growth_rate :=
          a * (4 # 10) + n2 / 100 * (3 # 10) + (1 - pest_pressure1) * (3 # 10) in
        Qmin 1 (crop_growth_stage f + (1 # 100) * growth_rate)
    | None => 1
    end in
  let day_counter1 := (day_counter f + 1)%Z in
  let entry :=
    mkLogEntry day_counter1 avg_moisture n2 pest_pressure1 crop_growth_stage1
      water_used1 (irrigation * inject_Z (size f)) fertilizer_applied1 in
  (mkFarm (size f) (crop_type f) (simulation_days f) day_counter1
     soil_moisture2
     (mkNutrients n2 (nutr_P (soil_nutrients f)) (nutr_K (soil_nutrients f)))
     pest_pressure1 crop_growth_stage1 water_used1 fertilizer_applied1
     irrigation_applied1 (daily_logs f ++ [entry]),
   Qltb crop_growth_stage1 1 && (day_counter1 <? simulation_days f)%Z).

Definition advance_day (f : VirtualFarm) (d : DayDraws) : VirtualFarm * bool :=
  simulate_day f d.

(** [n] calls of [advance_day], the [k]-th with the draws [draws k]. *)
Fixpoint run (n : nat) (f : VirtualFarm) (draws : nat -> DayDraws)
  : VirtualFarm :=
  match n with
  | O => f
  | S k => fst (advance_day (run k f draws) (draws k))
  end.

(** ** Report and driver *)

(** The dict [generate_report] returns. *)
Record Report : Type := mkReport {
  total_days : Z;
  final_crop_growth : Q;
  estimated_yield_kg : Z;
  total_water_used_liters : Z;
  total_fertilizer_applied_kg : Q;
  final_soil_N_ppm : Q;
  final_pest_pressure : Q
}.

(** [generate_report]: [round(x)] without a number of digits is an int. *)
Definition generate_report (f : VirtualFarm) : Report :=
  let yield_kg := crop_growth_stage f * inject_Z (size f) * 1000 in
  mkReport (day_counter f)
    (py_round (crop_growth_stage f) 2)
    (rint yield_kg)
    (rint (water_used f * 1000))
    (py_round (fertilizer_applied f) 2)
    (py_round (nutr_N (soil_nutrients f)) 2)
    (py_round (pest_pressure f) 2).

(** The loop [while farm.advance_day(): pass] of [run_simulation], from the
    [k]-th call on, with at most [fuel] calls: the farm when the loop ends,
    [None] when the calls run out. *)
Fixpoint simulation_loop (fuel : nat) (f : VirtualFarm)
  (draws : nat -> DayDraws) (k : nat) : option VirtualFarm :=
  match fuel with
  | O => None
  | S fuel' =>
      let r := advance_day f (draws k) in
      if snd r then simulation_loop fuel' (fst r) draws (S k)
      else Some (fst r)
  end.

(** [run_simulation(..., return_data=True)]: the report and the daily
    logs. *)
Definition run_simulation (fuel : nat) (farm_size : py_number)
  (crop_type : string) (duration : Z) (moisture : nat -> Q)
  (draws : nat -> DayDraws)
  : result (option (Report * list LogEntry)) :=
  farm <- create farm_size crop_type duration moisture ;;
  match simulation_loop fuel farm draws 0 with
  | None => Ok None
  | Some farm' => Ok (Some (generate_report farm', daily_logs farm'))
  end.

End Simulation.

(** * Predicates and abbreviations of the properties *)

(** A node whose index into the moisture array is in range. *)
Definition node_ok (n : App.SensorNode) : Prop :=
  (-3 <= App.band_index n <= 2)%Z.


(** The attributes that fix the calendar of a run and the place in it. *)
Definition schedule (f : App.VirtualFarm) : Q * Z * list App.Weather * Z * Z :=
  (App.size f, App.days f, App.weather f, App.day_counter f,
   App.current_date f).

(** The three physical updates of a day, in the order of [advance_day]. *)
Definition updated (f : App.VirtualFarm) (today : App.Weather) (noise : Q)
  : App.VirtualFarm :=
  App.update_pest_pressure
    (App.update_crop_growth (App.update_soil_moisture f today noise) today)
    today.

(** The farm after the actions of the day: [updated], then the nodes as
    [collect_data] left them, then the decisions executed. *)
Definition acted (f : App.VirtualFarm) (today : App.Weather) (noise : Q)
  (nodes : list App.SensorNode) (sd : App.SensorData) : App.VirtualFarm :=
  let g := App.set_sensor_network (updated f today noise) nodes in
  App.execute_actions g (App.decision_engine g sd today).



(** The ranges the simpler engine keeps. *)
Definition sim_ok (f : Simulation.VirtualFarm) : Prop :=
  (0 <= Simulation.pest_pressure f /\ Simulation.pest_pressure f <= 1)
  /\ (0 <= Simulation.crop_growth_stage f
      /\ Simulation.crop_growth_stage f <= 1)
  /\ 0 <= Simulation.nutr_N (Simulation.soil_nutrients f)
  /\ Forall (fun m => 0 <= m) (Simulation.soil_moisture f).

(** A size far inside the range of the doubles, which ends near
    [2 ** 1024]: its product with 1.5 cannot overflow. *)
Definition in_float_range (size : Q) : Prop := Qabs size < 2 ^ 1000.

(** The closed interval [[0, 1]]. *)
Definition in_unit (x : Q) : Prop := 0 <= x /\ x <= 1.

(** What identifies a node: [collect_data] changes batteries and the
    operational flags only. *)
Definition node_key (n : App.SensorNode) : nat * App.SensorType * (Q * Q * Q) :=
  (App.node_id n, App.sensor_type n, App.position n).

(** Measurements within the physical ranges of the sensors. *)
Definition readings_ok (m : App.Measurements) : Prop :=
  Forall (fun v => 0 <= v) (App.m_soil_moisture m)
  /\ Forall (fun v => 0 <= v) (App.m_nutrient m)
  /\ Forall (fun v => 0 <= v /\ v <= 100) (App.m_pest m).



(** The simpler engine with its nitrogen between the fertilization threshold
    and the initial level. *)
Definition nitrogen_ok (f : Simulation.VirtualFarm) : Prop :=
  sim_ok f
  /\ 20 <= Simulation.nutr_N (Simulation.soil_nutrients f)
  /\ Simulation.nutr_N (Simulation.soil_nutrients f) <= 50.

(** The log of the simpler engine in step with its day counter, and its two
    water counters in step with each other. *)
Definition log_ok (f : Simulation.VirtualFarm) : Prop :=
  Z.of_nat (List.length (Simulation.daily_logs f)) = Simulation.day_counter f
  /\ Simulation.water_used f = Simulation.irrigation_applied f.

(** * Concrete inputs *)

(** A stand-in for [np.sin] on a horizon of at most two days: the source
    evaluates the sine at [0] and at [np.pi] only, where it is zero (up to
    the rounding to one decimal that [np.round] applies). *)
Definition flat_sin (x : Q) : Q := 0.

(** A stand-in for [np.pi]. *)
Definition pi_approx : Q := 3141592653589793 # 1000000000000000.

(** Draws of a constructor, of a node and of a day step. *)
Definition init_draws : App.InitDraws :=
  App.mkInitDraws (1 # 2, 1 # 2, 1 # 2) (fun _ => 0) (fun _ => 2)
    (fun _ => App.mkNodeInit App.Pick0 1 1).

Definition node_draw : App.NodeDraws :=
  App.mkNodeDraws (3 # 10) (1 # 2) 0 (1 # 2).

Definition tick_draws (k : nat) : App.TickDraws :=
  App.mkTickDraws 0 (fun _ => node_draw).

(** [VirtualFarm(size_ha=2, crop_type='wheat', soil_type='loam',
    simulation_days=2)]. *)
Definition small_farm : result App.VirtualFarm :=
  App.create flat_sin pi_approx 2 "wheat" "loam" 2 init_draws.

(** Draws of a day of the simpler engine. *)
Definition day_draws (k : nat) : Simulation.DayDraws :=
  Simulation.mkDayDraws (2 # 100) 0 (1 # 100).

(** [VirtualFarm(size_ha=1, crop_type="wheat", simulation_days=1)] of the
    simpler engine. *)
Definition one_day_farm : result Simulation.VirtualFarm :=
  Simulation.create 1 "wheat" 1 (fun _ => 3 # 10).





(** A farm one day before maturity, at day 39 of 120, and the weather rows
    of days 39 and 40 (the first day of the wheat heat wave). *)
Definition ripening_farm : App.VirtualFarm :=
  App.mkFarm 10 "wheat" "loam" 120 39%Z 39%Z (25, 25, 25)
    (App.mkNutrients 50 30 40) (945 # 1000) 0 [] 0 0 0 0
    (App.mkCosts 0 0 0 0) 0 [].




(** A farm with costs and a revenue. *)
Definition paying_farm : App.VirtualFarm :=
  App.mkFarm 10 "wheat" "loam" 120 0%Z 0%Z (25, 25, 25)
    (App.mkNutrients 50 30 40) 1 0 [] 0 0 0 50000
    (App.mkCosts 2 1 1 1) 15000 [].

(** A farm whose three moisture components are 20, 25 and 29, and its first
    node, a soil-moisture sensor at depth 0.1. *)
Definition banded_init : App.InitDraws :=
  App.mkInitDraws (0, 1 # 2, 9 # 10) (fun _ => 0) (fun _ => 2)
    (fun _ => App.mkNodeInit App.Pick0 1 1).


(** * Properties *)

(** ** Facts about the arithmetic *)

Lemma Qltb_lt (x y : Q) : Qltb x y = true <-> x < y.
Proof.
  unfold Qltb. rewrite Qlt_alt. destruct (x ?= y); split; congruence.
Qed.

Lemma Qltb_ge (x y : Q) : Qltb x y = false <-> y <= x.
Proof.
  unfold Qltb. destruct (x ?= y) eqn:E; split; try congruence; intros H.
  - apply Qeq_alt in E. rewrite E. apply Qle_refl.
  - apply Qlt_alt in E. exfalso. apply (Qlt_not_le _ _ E H).
  - apply Qgt_alt in E. apply Qlt_le_weak. exact E.
Qed.



Lemma Qeqb_eq (x y : Q) : Qeqb x y = true <-> x == y.
Proof.
  unfold Qeqb. rewrite Qeq_alt. destruct (x ?= y); split; congruence.
Qed.

Lemma Qmax_ge_l (x y : Q) : x <= Qmax x y.
Proof. apply Q.le_max_l. Qed.

Lemma Qmin_le_l (x y : Q) : Qmin x y <= x.
Proof. apply Q.le_min_l. Qed.

Lemma Qmin_ge (x y z : Q) : z <= x -> z <= y -> z <= Qmin x y.
Proof. intros; apply Q.min_glb; assumption. Qed.

Lemma Qltb_comp (x x' y y' : Q) : x == x' -> y == y' -> Qltb x y = Qltb x' y'.
Proof. intros Hx Hy. unfold Qltb. rewrite Hx, Hy. reflexivity. Qed.

Lemma py_int_comp (x y : Q) : x == y -> py_int x = py_int y.
Proof.
  intros H. unfold py_int.
  rewrite (Qltb_comp x y 0 0 H (Qeq_refl 0)).
  rewrite (Qfloor_comp _ _ H), (Qceiling_comp _ _ H). reflexivity.
Qed.

Lemma rint_ge_floor (x : Q) : (Qfloor x <= rint x)%Z.
Proof.
  unfold rint. destruct (_ ?= _); [destruct (Z.even _)| |]; lia.
Qed.

Lemma np_round1_ge (k : Z) (x : Q) : inject_Z k <= x -> inject_Z k <= np_round1 x.
Proof.
  intros H. unfold np_round1.
  assert (Hk : (k * 10 <= rint (x * 10))%Z).
  { etransitivity; [|apply rint_ge_floor].
    rewrite <- (Qfloor_Z (k * 10)). apply Qfloor_resp_le.
    rewrite inject_Z_mult. apply Qmult_le_compat_r; [exact H|]. discriminate. }
  apply Qle_shift_div_l; [reflexivity|].
  change 10 with (inject_Z 10). rewrite <- inject_Z_mult, <- Zle_Qle. exact Hk.
Qed.

(** ** Reading a sequence of fallible steps *)

Lemma bind_ok {A B : Type} (r : result A) (k : A -> result B) (b : B) :
  (x <- r ;; k x) = Ok b -> exists a, r = Ok a /\ k a = Ok b.
Proof.
  destruct r as [a|e]; simpl; intros H; [exists a; auto | discriminate].
Qed.

Ltac bind_inv H :=
  let a := fresh "a" in
  let Ha := fresh "Ha" in
  apply bind_ok in H; destruct H as (a & Ha & H).

Lemma py_getitem_in_range {A : Type} (l : list A) (i : Z) :
  (- Z.of_nat (List.length l) <= i < Z.of_nat (List.length l))%Z ->
  exists a, py_getitem l i = Ok a.
Proof.
  intros Hi. unfold py_getitem.
  set (n := Z.of_nat (List.length l)) in *.
  set (j := if (i <? 0)%Z then (n + i)%Z else i).
  assert (Hj : (0 <= j < n)%Z).
  { subst j. destruct (Z.ltb_spec i 0); lia. }
  replace ((0 <=? j)%Z && (j <? n)%Z) with true
    by (symmetry; apply andb_true_iff; split;
        [apply Z.leb_le | apply Z.ltb_lt]; lia).
  destruct (nth_error l (Z.to_nat j)) eqn:E; [eauto|].
  apply nth_error_None in E. lia.
Qed.


(** ** Well-formed farms of the weather-driven engine *)




Lemma measure_ok (farm : App.VirtualFarm) (n : App.SensorNode)
  (d : App.NodeDraws) :
  node_ok n ->
  exists r, App.measure farm n d = Ok r
            /\ App.position (fst r) = App.position n
            /\ App.sensor_type (fst r) = App.sensor_type n.
Proof.
  intros Hn. unfold App.measure.
  destruct (negb (App.operational n)); [eexists; split; [reflexivity|auto]|].
  destruct (Qltb _ _); [eexists; split; [reflexivity|auto]|].
  cbn [App.sensor_type].
  destruct (App.sensor_type n); try (eexists; split; [reflexivity|auto]).
  destruct (py_getitem_in_range (App.vec3_list (App.soil_moisture farm))
              (App.band_index
                 (App.mkNode (App.node_id n) App.soil_moisture_sensor
                    (App.position n) (App.battery n - App.battery_drain d)
                    (App.operational n)))) as [v Hv].
  { destruct (App.soil_moisture farm) as [[a b] c]. cbn [App.vec3_list List.length].
    unfold node_ok, App.band_index in *. cbn [App.position] in *. lia. }
  rewrite Hv. eexists; split; [reflexivity|auto].
Qed.

Lemma node_ok_position (n n' : App.SensorNode) :
  App.position n' = App.position n -> node_ok n -> node_ok n'.
Proof. unfold node_ok, App.band_index. intros ->. auto. Qed.

Lemma collect_loop_ok (farm : App.VirtualFarm) (draws : nat -> App.NodeDraws)
  (nodes : list App.SensorNode) :
  Forall node_ok nodes ->
  forall (i : nat) (m : App.Measurements),
  exists r, App.collect_loop farm draws i nodes m = Ok r
            /\ Forall node_ok (fst r).
Proof.
  induction 1 as [|n rest Hn Hrest IH]; intros i m; simpl.
  - eexists; split; [reflexivity|constructor].
  - destruct (measure_ok farm n (draws i) Hn) as (r & Hr & Hpos & _).
    rewrite Hr. simpl.
    match goal with
    | |- context [App.collect_loop farm draws (S i) rest ?m1] =>
        destruct (IH (S i) m1) as (r' & Hr' & Hok)
    end.
    rewrite Hr'. simpl. eexists; split; [reflexivity|].
    simpl. constructor; [|exact Hok].
    destruct (_ && _); [|eapply node_ok_position; eauto].
    eapply node_ok_position; [|exact Hn]. simpl. exact Hpos.
Qed.


(** ** The day step of the weather-driven engine, field by field *)

Ltac split_ifs :=
  repeat match goal with
         | |- context [if ?b then _ else _] => destruct b
         end.

(** Reads an attribute through the assignments made to the farm. *)
Ltac read_fields :=
  cbn [fst snd
       App.size App.crop App.soil App.days App.current_date App.day_counter
       App.soil_moisture App.soil_nutrients App.crop_growth_stage
       App.pest_pressure App.weather App.irrigation_applied
       App.fertilizer_applied App.water_used App.yield_kg App.costs
       App.revenue App.sensor_network
       App.set_current_date App.set_day_counter App.set_soil_moisture
       App.set_soil_nutrients App.set_crop_growth_stage App.set_pest_pressure
       App.set_irrigation_applied App.set_fertilizer_applied
       App.set_water_used App.set_yield_kg App.set_costs App.set_revenue
       App.set_sensor_network].

Ltac farm_fields :=
  unfold App.execute_actions, App.update_pest_pressure, App.update_crop_growth,
    App.update_soil_moisture;
  split_ifs; read_fields; try reflexivity.

Lemma updated_frame (f : App.VirtualFarm) (today : App.Weather) (noise : Q) :
  schedule (updated f today noise) = schedule f
  /\ App.sensor_network (updated f today noise) = App.sensor_network f
  /\ App.irrigation_applied (updated f today noise) = App.irrigation_applied f
  /\ App.fertilizer_applied (updated f today noise) = App.fertilizer_applied f
  /\ App.water_used (updated f today noise) =
     App.water_used f + App.depletion today noise.
Proof. unfold updated, schedule. repeat split; farm_fields. Qed.






(** [update_economics] assigns to [costs] and [revenue] only. *)
Lemma update_economics_inv (f f5 : App.VirtualFarm) :
  App.update_economics f = Ok f5 ->
  exists c r, f5 = App.set_revenue (App.set_costs f c) r.
Proof.
  unfold App.update_economics. intros H.
  apply bind_ok in H. destruct H as (labor & _ & H).
  injection H as <-. read_fields.
  destruct (_ =? _)%Z; [eexists; eexists; reflexivity|].
  eexists. exists (App.revenue f). reflexivity.
Qed.

Lemma py_div_ok (a b : Q) : ~ b == 0 -> py_div a b = Ok (a / b).
Proof.
  intros Hb. unfold py_div. destruct (Qeqb b 0) eqn:E; [|reflexivity].
  apply Qeqb_eq in E. contradiction.
Qed.


(** [collect_data] assigns to the nodes only. *)
Lemma collect_data_inv (f : App.VirtualFarm) (draws : nat -> App.NodeDraws)
  (r : App.VirtualFarm * App.SensorData) :
  App.collect_data f draws = Ok r ->
  exists nodes,
    fst r = App.set_sensor_network f nodes
    /\ (Forall node_ok (App.sensor_network f) -> Forall node_ok nodes).
Proof.
  unfold App.collect_data. intros H.
  apply bind_ok in H. destruct H as (loop & Hloop & H).
  injection H as <-. exists (fst loop). split; [reflexivity|].
  intros Hok.
  destruct (collect_loop_ok f draws _ Hok 0%nat (App.mkMeasurements [] [] []))
    as (r' & Hr' & Hok').
  rewrite Hr' in Hloop. injection Hloop as <-. exact Hok'.
Qed.

(** A successful day step, taken apart. *)
Lemma tick_inv (f f' : App.VirtualFarm) (d : App.TickDraws) :
  App.tick f d = Ok f' ->
  exists today nodes sd c r,
    py_getitem (App.weather f) (App.day_counter f) = Ok today
    /\ (Forall node_ok (App.sensor_network f) -> Forall node_ok nodes)
    /\ f' =
       let f5 :=
         App.set_revenue
           (App.set_costs (acted f today (App.moisture_noise d) nodes sd) c) r in
       App.set_current_date
         (App.set_day_counter f5 (App.day_counter f5 + 1)%Z)
         (App.current_date f5 + 1)%Z.
Proof.
  unfold App.tick. intros H.
  apply bind_ok in H. destruct H as (today & Htoday & H).
  apply bind_ok in H. destruct H as (r & Hr & H).
  apply bind_ok in H. destruct H as (f5 & Hf5 & H).
  injection H as <-.
  fold (updated f today (App.moisture_noise d)) in Hr.
  apply collect_data_inv in Hr. destruct Hr as (nodes & Hfst & Hok).
  rewrite Hfst in Hf5.
  apply update_economics_inv in Hf5. destruct Hf5 as (c & rev & ->).
  exists today, nodes, (snd r), c, rev.
  split; [exact Htoday|]. split; [|reflexivity].
  intros Hn. apply Hok.
  rewrite (proj1 (proj2 (updated_frame f today (App.moisture_noise d)))).
  exact Hn.
Qed.





(** ** Growth and pest pressure along a day step *)






(** ** Rounding to the nearest double *)

Lemma rint_comp (x y : Q) : x == y -> rint x = rint y.
Proof.
  intros H. unfold rint. rewrite (Qfloor_comp _ _ H).
  assert (E : (x - inject_Z (Qfloor y) ?= 1 # 2)
              = (y - inject_Z (Qfloor y) ?= 1 # 2))
    by (rewrite H; reflexivity).
  rewrite E. reflexivity.
Qed.

Lemma rint_Z (z : Z) : rint (inject_Z z) = z.
Proof.
  unfold rint. rewrite Qfloor_Z.
  assert (E : (inject_Z z - inject_Z z ?= 1 # 2) = Lt).
  { apply Qlt_alt. ring_simplify (inject_Z z - inject_Z z). reflexivity. }
  rewrite E. reflexivity.
Qed.

Lemma pow2_pos (e : Z) : 0 < pow2 e.
Proof. apply Qpower_0_lt. reflexivity. Qed.

Lemma pow2_plus (a b : Z) : pow2 (a + b) == pow2 a * pow2 b.
Proof. apply Qpower_plus. discriminate. Qed.

Lemma pow2_Z (e : Z) : (0 <= e)%Z -> pow2 e == inject_Z (2 ^ e).
Proof. intros H. unfold pow2. rewrite Zpower_Qpower by exact H. reflexivity. Qed.

Lemma pow2_lt_inv (a b : Z) : pow2 a < pow2 b -> (a < b)%Z.
Proof. intros H. apply (Qpower_lt_compat_l_inv 2 a b H). reflexivity. Qed.

Lemma pow2_succ (e : Z) : pow2 (e + 1) == 2 * pow2 e.
Proof. rewrite pow2_plus. change (pow2 1) with 2. ring. Qed.

(** Numerator and denominator between consecutive powers of two. *)
Lemma Qlog2_rough (a : Q) :
  0 < a ->
  let e := (Z.log2 (Qnum a) - Z.log2 (Zpos (Qden a)))%Z in
  pow2 (e - 1) <= a /\ a < pow2 (e + 1).
Proof.
  intros Ha. cbv zeta.
  assert (Hn : (0 < Qnum a)%Z).
  { unfold Qlt in Ha. simpl in Ha. lia. }
  destruct (Z.log2_spec (Qnum a) Hn) as [Hn1 Hn2].
  destruct (Z.log2_spec (Zpos (Qden a)) (Pos2Z.is_pos _)) as [Hd1 Hd2].
  pose proof (Z.log2_nonneg (Qnum a)) as Hk.
  pose proof (Z.log2_nonneg (Zpos (Qden a))) as Hj.
  set (k := Z.log2 (Qnum a)) in *. set (j := Z.log2 (Zpos (Qden a))) in *.
  assert (Ea : a == inject_Z (Qnum a) / inject_Z (Zpos (Qden a))).
  { rewrite <- Qmake_Qdiv. destruct a; reflexivity. }
  assert (Hdpos : 0 < inject_Z (Zpos (Qden a))) by reflexivity.
  assert (Qn1 : pow2 k <= inject_Z (Qnum a)).
  { rewrite pow2_Z by exact Hk. rewrite <- Zle_Qle. exact Hn1. }
  assert (Qn2 : inject_Z (Qnum a) < pow2 (k + 1)).
  { rewrite pow2_Z by lia. rewrite <- Zlt_Qlt.
    replace (k + 1)%Z with (Z.succ k) by lia. exact Hn2. }
  assert (Qd1 : pow2 j <= inject_Z (Zpos (Qden a))).
  { rewrite pow2_Z by exact Hj. rewrite <- Zle_Qle. exact Hd1. }
  assert (Qd2 : inject_Z (Zpos (Qden a)) < pow2 (j + 1)).
  { rewrite pow2_Z by lia. rewrite <- Zlt_Qlt.
    replace (j + 1)%Z with (Z.succ j) by lia. exact Hd2. }
  pose proof (pow2_pos j) as Pj. pose proof (pow2_pos k) as Pk.
  pose proof (pow2_pos (k - j - 1)) as P1.
  pose proof (pow2_pos (k - j + 1)) as P2.
  assert (E1 : pow2 k == pow2 (k - j - 1) * pow2 (j + 1)).
  { rewrite <- pow2_plus. replace (k - j - 1 + (j + 1))%Z with k by lia.
    reflexivity. }
  assert (E2 : pow2 (k + 1) == pow2 (k - j + 1) * pow2 j).
  { rewrite <- pow2_plus. replace (k - j + 1 + j)%Z with (k + 1)%Z by lia.
    reflexivity. }
  rewrite Ea. split.
  - apply Qle_shift_div_l; [exact Hdpos|].
    apply Qle_trans with (pow2 (k - j - 1) * pow2 (j + 1)).
    + apply Qmult_le_l; [exact P1 | apply Qlt_le_weak; exact Qd2].
    + rewrite <- E1. exact Qn1.
  - apply Qlt_shift_div_r; [exact Hdpos|].
    apply Qlt_le_trans with (pow2 (k + 1)); [exact Qn2|].
    rewrite E2. apply Qmult_le_l; [exact P2 | exact Qd1].
Qed.

Lemma Qlog2_spec (a : Q) :
  0 < a -> pow2 (Qlog2 a) <= a /\ a < pow2 (Qlog2 a + 1).
Proof.
  intros Ha. destruct (Qlog2_rough a Ha) as [H1 H2]. unfold Qlog2.
  set (e := (Z.log2 (Qnum a) - Z.log2 (Zpos (Qden a)))%Z) in *.
  destruct (Qltb a (pow2 e)) eqn:E.
  - apply Qltb_lt in E. split; [exact H1|].
    replace (e - 1 + 1)%Z with e by lia. exact E.
  - apply Qltb_ge in E. split; [exact E | exact H2].
Qed.

(** A number with a significand of at most 53 bits is a double: rounding
    leaves it as it is. *)
Lemma fl64_exact (x : Q) (m k : Z) :
  x == inject_Z m * pow2 k -> (Z.abs m < 2 ^ 53)%Z -> fl64 x == x.
Proof.
  intros Hx Hm. unfold fl64.
  destruct (Qeqb x 0) eqn:E0.
  - apply Qeqb_eq in E0. rewrite E0. reflexivity.
  - assert (Hnz : ~ x == 0).
    { intros H. apply Qeqb_eq in H. rewrite H in E0. discriminate. }
    assert (Eabs : Qabs x == inject_Z (Z.abs m) * pow2 k).
    { rewrite Hx, Qabs_Qmult.
      rewrite (Qabs_pos (pow2 k)) by (apply Qlt_le_weak, pow2_pos).
      reflexivity. }
    assert (Ha : 0 < Qabs x).
    { destruct (Qle_lt_or_eq _ _ (Qabs_nonneg x)) as [H|H]; [exact H|].
      exfalso. apply Hnz.
      destruct (Qabs_Qle_condition x 0) as [Hc _].
      destruct Hc as [H1 H2]; [rewrite <- H; apply Qle_refl|].
      apply Qle_antisym; [exact H2 | exact H1]. }
    destruct (Qlog2_spec _ Ha) as [He1 He2].
    set (e := Qlog2 (Qabs x)) in *.
    pose proof (pow2_pos k) as Pk.
    assert (Hlt : pow2 e < pow2 (53 + k)).
    { apply Qle_lt_trans with (Qabs x); [exact He1|].
      rewrite Eabs, pow2_plus.
      apply Qmult_lt_r; [exact Pk|].
      rewrite pow2_Z by lia. rewrite <- Zlt_Qlt. exact Hm. }
    apply pow2_lt_inv in Hlt.
    set (s := (k - (e - 52))%Z).
    assert (Hs : (0 <= s)%Z) by (subst s; lia).
    pose proof (pow2_pos (e - 52)) as Pu.
    assert (Ek : pow2 k == pow2 s * pow2 (e - 52)).
    { rewrite <- pow2_plus. replace (s + (e - 52))%Z with k by (subst s; lia).
      reflexivity. }
    assert (Eq : x / pow2 (e - 52) == inject_Z (m * 2 ^ s)).
    { rewrite inject_Z_mult, <- pow2_Z by exact Hs.
      rewrite Hx, Ek. field. intros H. rewrite H in Pu. discriminate. }
    rewrite (rint_comp _ _ Eq), rint_Z, Qred_correct.
    rewrite inject_Z_mult, <- pow2_Z by exact Hs.
    rewrite Hx, Ek. ring.
Qed.

(** Whole numbers and their halves, quarters, ... are doubles, and so is
    their product with 1.5, as long as three times the significand fits. *)
Lemma float_product_exact (size : Q) (m k : Z) :
  size == inject_Z m * pow2 k -> (Z.abs (3 * m) < 2 ^ 53)%Z ->
  fl64 (fl64 size * (3 # 2)) == size * (3 # 2).
Proof.
  intros Hs Hm.
  assert (E1 : fl64 size == size) by (apply (fl64_exact size m k Hs); lia).
  apply Qeq_trans with (fl64 size * (3 # 2)); [|rewrite E1; reflexivity].
  apply (fl64_exact _ (3 * m) (k - 1)); [|exact Hm].
  rewrite E1, Hs, inject_Z_mult.
  replace k with (k - 1 + 1)%Z at 1 by lia. rewrite pow2_succ.
  change (inject_Z 3) with 3. field.
Qed.

(** ** Runs of the weather-driven engine *)




(** ** Farms as the constructor makes them *)

Lemma window_nonneg (lo hi : Z) (v : Q) (i : Z) :
  0 <= v -> 0 <= App.window lo hi v i.
Proof. intros. unfold App.window. destruct (_ && _); [assumption|apply Qle_refl]. Qed.

Section Created.

Variable np_sin : Q -> Q.
Variable np_pi : Q.
Hypothesis np_sin_range : forall x, -1 <= np_sin x /\ np_sin x <= 1.






End Created.
(** ** The cumulative counters along a day step *)

Lemma decision_amounts_nonneg (f : App.VirtualFarm) (sd : App.SensorData)
  (w : App.Weather) :
  0 <= App.irrigation_amount (App.decision_engine f sd w)
  /\ 0 <= App.fertilizer_amount (App.decision_engine f sd w).
Proof.
  unfold App.decision_engine.
  cbn [App.irrigation_amount App.fertilizer_amount].
  split.
  - destruct (Qltb 5 _); [|apply Qle_refl].
    apply Q.min_glb; [|discriminate].
    pose proof (Q.le_max_l 0 (25 - App.soil_moisture_avg sd)). lra.
  - destruct (_ && _); [|apply Qle_refl].
    apply Q.min_glb; [|discriminate].
    pose proof (Q.le_max_l 0
                  ((40 - App.soil_N sd) * App.crop_growth_stage f)). lra.
Qed.



(** ** The simpler engine *)

Lemma np_clip_unit (x : Q) : 0 <= np_clip x 0 1 /\ np_clip x 0 1 <= 1.
Proof.
  unfold np_clip. split.
  - apply Q.min_glb; [apply Q.le_max_r | discriminate].
  - apply Q.le_min_r.
Qed.

Lemma Qsum_nonneg (l : list Q) : Forall (fun m => 0 <= m) l -> 0 <= Qsum l.
Proof.
  induction 1 as [|m l Hm _ IH]; simpl; [apply Qle_refl | lra].
Qed.

Lemma mean_val_nonneg (l : list Q) :
  Forall (fun m => 0 <= m) l -> 0 <= mean_val l.
Proof.
  intros H. unfold mean_val. destruct l as [|m l].
  - cbn. discriminate.
  - apply Qle_shift_div_l.
    + change 0 with (inject_Z 0). rewrite <- Zlt_Qlt.
      cbn [List.length]. lia.
    + rewrite Qmult_0_l. apply Qsum_nonneg. exact H.
Qed.

Lemma simulate_day_ok (f : Simulation.VirtualFarm) (d : Simulation.DayDraws) :
  sim_ok f -> sim_ok (fst (Simulation.simulate_day f d)).
Proof.
  intros ((Hp0 & Hp1) & (Hg0 & Hg1) & Hn & Hm).
  unfold Simulation.simulate_day.
  cbn [fst Simulation.pest_pressure Simulation.crop_growth_stage
       Simulation.soil_nutrients Simulation.nutr_N Simulation.soil_moisture].
  pose proof (np_clip_unit
                (Simulation.pest_pressure f + Simulation.pest_change d))
    as [Hc0 Hc1].
  pose proof (Q.le_max_l 0
                (Simulation.nutr_N (Simulation.soil_nutrients f)
                 - (3 # 10) * Simulation.crop_growth_stage f)) as Hmax.
  set (n1 := Qmax 0 _) in *.
  assert (Hn2 : 0 <= (if Qltb n1 20 then n1 + 10 else n1))
    by (destruct (Qltb n1 20); lra).
  split; [split; assumption|]. split; [|split].
  - unfold np_mean. destruct (Simulation.soil_moisture f) as [|m l] eqn:E.
    + split; discriminate.
    + pose proof (mean_val_nonneg (m :: l) Hm) as Ha.
      split; [|apply Q.le_min_l].
      apply Q.min_glb; [discriminate|].
      set (a := mean_val (m :: l)) in *.
      set (n2 := if Qltb n1 20 then n1 + 10 else n1) in *.
      set (p := np_clip _ 0 1) in *.
      assert (0 <= n2 / 100) by (apply Qle_shift_div_l; [reflexivity|lra]).
      lra.
  - exact Hn2.
  - apply Forall_forall. intros x Hx. apply in_map_iff in Hx.
    destruct Hx as (y & <- & _). apply np_clip_unit.
Qed.

Lemma sim_run_ok (f0 : Simulation.VirtualFarm)
  (draws : nat -> Simulation.DayDraws) :
  sim_ok f0 -> forall n, sim_ok (Simulation.run n f0 draws).
Proof.
  intros H0. induction n as [|n IH]; cbn [Simulation.run].
  - exact H0.
  - unfold Simulation.advance_day. apply simulate_day_ok. exact IH.
Qed.

Lemma sim_create_ok (size : Z) (crop : string) (days : Z) (moisture : nat -> Q)
  (f0 : Simulation.VirtualFarm) :
  Simulation.create size crop days moisture = Ok f0 ->
  (forall k, (k < Z.to_nat size)%nat ->
             Simulation.moisture_in_support (moisture k)) ->
  sim_ok f0.
Proof.
  unfold Simulation.create. destruct (size <? 0)%Z; [discriminate|].
  intros E Hs. injection E as <-.
  cbv [sim_ok Simulation.pest_pressure Simulation.crop_growth_stage
       Simulation.soil_nutrients Simulation.nutr_N Simulation.soil_moisture].
  repeat split; try discriminate.
  apply Forall_forall. intros x Hx. apply in_map_iff in Hx.
  destruct Hx as (k & <- & Hk). apply in_seq in Hk.
  destruct (Hs k) as [Hlo _]; [lia|]. lra.
Qed.

Lemma sim_create_succeeds (size : Z) (crop : string) (days : Z)
  (moisture : nat -> Q) :
  (0 <= size)%Z -> exists f, Simulation.create size crop days moisture = Ok f.
Proof.
  intros H. unfold Simulation.create.
  destruct (Z.ltb_spec size 0); [lia|eauto].
Qed.


(** * The claims *)




Lemma flat_sin_range (x : Q) : -1 <= flat_sin x /\ flat_sin x <= 1.
Proof. split; discriminate. Defined.












(** C6, as stated, fails: the node count is [int(size * 1.5)], a truncation.
    For one hectare the network has one node, and 1.5 rounds to 2. *)
Lemma one_hectare_has_one_node :
  List.length (App.initialize_network 1 init_draws) = 1%nat
  /\ rint (1 * (3 # 2)) = 2%Z.
Proof. split; reflexivity. Qed.

(** The truncation is of the float product, not of the exact one: for the
    double nearest to two thirds, 0.6666666666666666, which is below two
    thirds, the product with 1.5 rounds to 1.0 and the network has one
    node, where the exact product truncates to 0. *)
Lemma float_product_rounds_up :
  fl64 (2 # 3) == 6004799503160661 # 9007199254740992
  /\ fl64 (2 # 3) < 2 # 3
  /\ List.length (App.initialize_network (fl64 (2 # 3)) init_draws) = 1%nat
  /\ py_int (fl64 (2 # 3) * (3 # 2)) = 0%Z.
Proof. repeat split. Qed.

(** C6 (amended).  For every farm size in the range of the doubles the
    network has exactly
    [int(size * 1.5)] nodes, with the product computed in floating point
    (the size as a double, times 1.5, rounded to the nearest double) and
    truncated toward zero (no node when that is not positive).  For a size
    with a short binary expansion, [m * 2 ** k] with [3 * m] below [2 ** 53]
    in absolute value (every whole number of hectares up to 3e15, and its
    halves, quarters and so on), the float product is exact and the count
    is the exact product truncated.  The node at place [i] has identifier
    [i] and the sensor type at place [i mod 3] of soil moisture, nutrient,
    pest. *)
Theorem initialize_network_nodes (size : Q) (d : App.InitDraws) :
  in_float_range size ->
  List.length (App.initialize_network size d)
  = Z.to_nat (py_int (fl64 (fl64 size * (3 # 2))))
  /\ (forall m k : Z,
        size == inject_Z m * 2 ^ k -> (Z.abs (3 * m) < 2 ^ 53)%Z ->
        List.length (App.initialize_network size d)
        = Z.to_nat (py_int (size * (3 # 2))))
  /\ forall (i : nat) (n : App.SensorNode),
       nth_error (App.initialize_network size d) i = Some n ->
       App.node_id n = i
       /\ App.sensor_type n =
          nth (i mod 3)
            [App.soil_moisture_sensor; App.nutrient_sensor; App.pest_sensor]
            App.soil_moisture_sensor.
Proof.
  intros _. unfold App.initialize_network. split; [|split].
  - rewrite length_map, length_seq. reflexivity.
  - intros m k Hsize Hm. rewrite length_map, length_seq.
    rewrite (py_int_comp _ _ (float_product_exact size m k Hsize Hm)).
    reflexivity.
  - intros i n H. rewrite nth_error_map in H.
    destruct (nth_error (seq 0 _) i) as [k|] eqn:E; [|discriminate].
    injection H as <-.
    assert (Hk : k = i).
    { assert (Hi : (i < List.length
                          (seq 0 (Z.to_nat
                                    (py_int (fl64 (fl64 size * (3 # 2)))))))%nat)
        by (apply nth_error_Some; rewrite E; discriminate).
      rewrite length_seq in Hi.
      pose proof (nth_error_nth _ _ 0%nat E) as Hn.
      rewrite seq_nth in Hn by exact Hi. lia. }
    subst k. split; reflexivity.
Qed.

Lemma initialize_network_nodes_witness :
  List.length (App.initialize_network 5 init_draws) = 7%nat
  /\ List.length (App.initialize_network (5 # 2) init_draws)
     = Z.to_nat (py_int ((5 # 2) * (3 # 2)))
  /\ exists n, nth_error (App.initialize_network 5 init_draws) 4 = Some n
               /\ App.node_id n = 4%nat
               /\ App.sensor_type n = App.nutrient_sensor.
Proof.
  destruct (initialize_network_nodes 5 init_draws ltac:(reflexivity))
    as (Hlen & _ & Hnth).
  split; [exact Hlen|]. split.
  { apply (proj1 (proj2 (initialize_network_nodes (5 # 2) init_draws
                           ltac:(reflexivity)))
             5%Z (- 1)%Z); reflexivity. }
  eexists. split; [vm_compute; reflexivity|].
  refine (Hnth 4%nat _ _). vm_compute. reflexivity.
Defined.




(** C8: [calculate_roi] raises nothing.  With the total cost the sum of the
    four costs (system, water, fertilizer, labor) times the number of days,
    it returns [(revenue - total cost) / total cost * 100] when the total
    cost is positive and exactly 0 when the total cost is 0 (or below). *)
Theorem calculate_roi_guarded (f : App.VirtualFarm) :
  let total_cost :=
    (App.cost_system (App.costs f) + App.cost_water (App.costs f)
     + App.cost_fertilizer (App.costs f) + App.cost_labor (App.costs f))
    * inject_Z (App.days f) in
  (0 < total_cost ->
   exists q, App.calculate_roi f = Ok q
             /\ q == (App.revenue f - total_cost) / total_cost * 100)
  /\ (total_cost <= 0 -> App.calculate_roi f = Ok 0)
  /\ exists q, App.calculate_roi f = Ok q.
Proof.
  cbv zeta.
  assert (Ht : App.total_cost f ==
               (App.cost_system (App.costs f) + App.cost_water (App.costs f)
                + App.cost_fertilizer (App.costs f)
                + App.cost_labor (App.costs f)) * inject_Z (App.days f))
    by (unfold App.total_cost, App.costs_sum; ring).
  unfold App.calculate_roi.
  destruct (Qltb 0 (App.total_cost f)) eqn:E.
  - apply Qltb_lt in E.
    assert (Hd : py_div (App.net_benefit f) (App.total_cost f)
                 = Ok (App.net_benefit f / App.total_cost f)).
    { apply py_div_ok. intros H. rewrite H in E. discriminate. }
    rewrite Hd. cbn [bind]. split; [|split; [|eauto]].
    + intros _. eexists. split; [reflexivity|].
      unfold App.net_benefit. rewrite Ht. reflexivity.
    + intros H. rewrite <- Ht in H. exfalso. apply (Qlt_not_le _ _ E H).
  - apply Qltb_ge in E. split; [|split; [reflexivity|eauto]].
    intros H. rewrite <- Ht in H. exfalso. apply (Qlt_not_le _ _ H E).
Qed.

Lemma calculate_roi_guarded_witness :
  (exists q, App.calculate_roi paying_farm = Ok q /\ q == 2400)
  /\ App.calculate_roi ripening_farm = Ok 0.
Proof.
  split.
  - destruct (proj1 (calculate_roi_guarded paying_farm)) as (q & Hq & Hv);
      [reflexivity|].
    exists q. split; [exact Hq|]. rewrite Hv. reflexivity.
  - apply (proj1 (proj2 (calculate_roi_guarded ripening_farm))). discriminate.
Defined.

(** ** The sensor network: two defects *)

(** For every node that [initialize_network] makes, whatever its depth, the
    index into the moisture array is [-1]: a soil-moisture node that answers
    reads the last component. *)
Lemma measure_reads_last_band (farm : App.VirtualFarm) (d : App.InitDraws)
  (i : nat) (nd : App.NodeDraws) :
  App.sensor_type (App.new_node d i) = App.soil_moisture_sensor ->
  Qltb (App.fault_roll nd) (5 # 1000) = false ->
  exists n',
    App.measure farm (App.new_node d i) nd
    = Ok (n', Some (Qmax 0 (snd (App.soil_moisture farm)
                            + App.reading_noise nd))).
Proof.
  intros Ht Hf. unfold App.measure, App.band_index, App.new_node in *.
  cbn [App.operational App.sensor_type App.position App.node_id App.battery
       negb snd] in *.
  rewrite Hf, Ht.
  destruct (App.soil_moisture farm) as [[a b] c].
  destruct (App.depth_pick (App.node_init d i));
    cbn [App.choice snd App.vec3_list];
    (eexists; reflexivity).
Qed.

(** C5 (defect): the soil-moisture node at depth 0.1, the first of the three
    depths, returns the reading of the last component of the moisture array,
    29, and not of the first, 20: in [measure] the index [depth//10 - 1] is
    [-1] for every depth. *)
Theorem shallow_node_reads_deepest_band :
  exists f n rest n' v,
    App.create flat_sin pi_approx 2 "wheat" "loam" 2 banded_init = Ok f
    /\ App.sensor_network f = n :: rest
    /\ App.sensor_type n = App.soil_moisture_sensor
    /\ snd (App.position n) = 1 # 10
    /\ App.vec3_list (App.soil_moisture f) = [20 + (30 - 20) * 0;
                                              20 + (30 - 20) * (1 # 2);
                                              20 + (30 - 20) * (9 # 10)]
    /\ App.measure f n node_draw = Ok (n', Some v)
    /\ v == 29.
Proof.
  do 5 eexists. split; [reflexivity|].
  split; [vm_compute; reflexivity|].
  split; [reflexivity|]. split; [reflexivity|].
  split; [reflexivity|]. split; [reflexivity|]. reflexivity.
Qed.

Lemma count_operational_le (nodes : list App.SensorNode) :
  (List.length (filter App.operational nodes) <= List.length nodes)%nat.
Proof.
  induction nodes as [|n nodes IH]; simpl; [lia|].
  destruct (App.operational n); simpl; lia.
Qed.

(** On a network with at least one node the uptime is a percentage. *)
Lemma calculate_uptime_range (nodes : list App.SensorNode) :
  nodes <> [] ->
  exists u, App.calculate_uptime nodes = Ok u /\ 0 <= u /\ u <= 100.
Proof.
  intros Hne. unfold App.calculate_uptime.
  set (up := List.length (filter App.operational nodes)).
  set (n := List.length nodes).
  assert (Hn : (0 < n)%nat)
    by (subst n; destruct nodes; [contradiction | simpl; lia]).
  assert (Hup : (up <= n)%nat) by apply count_operational_le.
  assert (Hpos : 0 < inject_Z (Z.of_nat n))
    by (change 0 with (inject_Z 0); rewrite <- Zlt_Qlt; lia).
  rewrite py_div_ok by (intros H; rewrite H in Hpos; discriminate).
  cbn [bind]. eexists. split; [reflexivity|].
  assert (H0 : 0 <= inject_Z (Z.of_nat up))
    by (change 0 with (inject_Z 0); rewrite <- Zle_Qle; lia).
  assert (H1 : inject_Z (Z.of_nat up) <= inject_Z (Z.of_nat n))
    by (rewrite <- Zle_Qle; lia).
  assert (Hq0 : 0 <= inject_Z (Z.of_nat up) / inject_Z (Z.of_nat n))
    by (apply Qle_shift_div_l; [exact Hpos | lra]).
  assert (Hq1 : inject_Z (Z.of_nat up) / inject_Z (Z.of_nat n) <= 1)
    by (apply Qle_shift_div_r; [exact Hpos | lra]).
  split; lra.
Qed.

(** C9 (defect): a farm of half a hectare has a network without nodes, and
    on it [calculate_uptime] divides by the number of nodes, zero. *)
Theorem calculate_uptime_fails_without_nodes (d : App.InitDraws) :
  App.initialize_network (1 # 2) d = []
  /\ App.calculate_uptime (App.initialize_network (1 # 2) d)
     = Raise ZeroDivisionError.
Proof. split; reflexivity. Qed.

(** * Further properties of the code *)

(** ** Rounding *)

Lemma rint_le (k : Z) (x : Q) : x <= inject_Z k -> (rint x <= k)%Z.
Proof.
  intros H. unfold rint.
  assert (Hf : (Qfloor x <= k)%Z).
  { rewrite <- (Qfloor_Z k). apply Qfloor_resp_le. exact H. }
  assert (Hup : 0 < x - inject_Z (Qfloor x) -> (Qfloor x + 1 <= k)%Z).
  { intros Hpos. assert (Hlt : inject_Z (Qfloor x) < inject_Z k) by lra.
    rewrite <- Zlt_Qlt in Hlt. lia. }
  destruct (_ ?= _) eqn:E.
  - apply Qeq_alt in E. destruct (Z.even _); [exact Hf|]. apply Hup. lra.
  - exact Hf.
  - apply Qgt_alt in E. apply Hup. lra.
Qed.

Lemma rint_ge (k : Z) (x : Q) : inject_Z k <= x -> (k <= rint x)%Z.
Proof.
  intros H. etransitivity; [|apply rint_ge_floor].
  rewrite <- (Qfloor_Z k). apply Qfloor_resp_le. exact H.
Qed.

Lemma scale_pos (n : nat) : 0 < inject_Z (10 ^ Z.of_nat n).
Proof.
  change 0 with (inject_Z 0). rewrite <- Zlt_Qlt.
  apply Z.pow_pos_nonneg; lia.
Qed.

Lemma py_round_le (k : Z) (x : Q) (n : nat) :
  x <= inject_Z k -> py_round x n <= inject_Z k.
Proof.
  intros H. unfold py_round. pose proof (scale_pos n) as Hs.
  apply Qle_shift_div_r; [exact Hs|].
  rewrite <- inject_Z_mult, <- Zle_Qle. apply rint_le.
  rewrite inject_Z_mult. apply Qmult_le_compat_r; [exact H | lra].
Qed.

Lemma py_round_ge (k : Z) (x : Q) (n : nat) :
  inject_Z k <= x -> inject_Z k <= py_round x n.
Proof.
  intros H. unfold py_round. pose proof (scale_pos n) as Hs.
  apply Qle_shift_div_l; [exact Hs|].
  rewrite <- inject_Z_mult, <- Zle_Qle. apply rint_ge.
  rewrite inject_Z_mult. apply Qmult_le_compat_r; [exact H | lra].
Qed.

Lemma np_round1_le (k : Z) (x : Q) :
  x <= inject_Z k -> np_round1 x <= inject_Z k.
Proof.
  intros H. unfold np_round1.
  apply Qle_shift_div_r; [reflexivity|].
  change 10 with (inject_Z 10). rewrite <- inject_Z_mult, <- Zle_Qle.
  apply rint_le. rewrite inject_Z_mult.
  apply Qmult_le_compat_r; [exact H | discriminate].
Qed.

(** ** The weather profile *)

Lemma window_cases (lo hi : Z) (v : Q) (i : Z) :
  App.window lo hi v i = v \/ App.window lo hi v i = 0.
Proof. unfold App.window. destruct (_ && _); auto. Qed.

(** [generate_weather_profile], for every sine with values in [[-1, 1]] and
    every sample: a profile that is returned has one row per day, numbered
    from 0 in order, its rainfall is never negative and its temperature lies
    between 5 and 33 degrees, and between 5 and 25 for a crop other than
    wheat (the only crop with a heat wave). *)
Theorem weather_profile_rows (np_sin : Q -> Q) (np_pi : Q) (crop : string)
  (days : Z) (d : App.InitDraws) (w : list App.Weather) :
  (forall x, -1 <= np_sin x /\ np_sin x <= 1) ->
  App.generate_weather_profile np_sin np_pi crop days d = Ok w ->
  Z.of_nat (List.length w) = days
  /\ forall (i : nat) (row : App.Weather),
       nth_error w i = Some row ->
       App.day row = Z.of_nat i
       /\ 0 <= App.rainfall row
       /\ 5 <= App.temperature row
       /\ App.temperature row <= 33
       /\ (String.eqb crop "wheat" = false -> App.temperature row <= 25).
Proof.
  intros Hsin Hw. unfold App.generate_weather_profile in Hw.
  destruct (Z.ltb_spec days 0); [discriminate|]. injection Hw as <-.
  split; [rewrite length_map, length_seq; lia|].
  intros i row Hrow. rewrite nth_error_map in Hrow.
  destruct (nth_error (seq 0 (Z.to_nat days)) i) as [k|] eqn:E;
    [|discriminate].
  injection Hrow as <-.
  assert (Hk : k = i).
  { assert (Hi : (i < List.length (seq 0 (Z.to_nat days)))%nat)
      by (apply nth_error_Some; rewrite E; discriminate).
    rewrite length_seq in Hi.
    pose proof (nth_error_nth _ _ 0%nat E) as Hn.
    rewrite seq_nth in Hn by exact Hi. lia. }
  subst k. unfold App.weather_row.
  cbn [App.day App.rainfall App.temperature].
  match goal with |- context [np_sin ?x] => destruct (Hsin x) as [Hlo Hhi] end.
  split; [reflexivity|]. split.
  - apply (np_round1_ge 0).
    destruct (String.eqb crop "wheat"); apply Q.le_max_l.
  - split; [|split].
    + apply (np_round1_ge 5).
      pose proof (window_nonneg 40 45 8 (Z.of_nat i)).
      change (inject_Z 5) with 5. destruct (String.eqb crop "wheat"); lra.
    + apply (np_round1_le 33). change (inject_Z 33) with 33.
      destruct (String.eqb crop "wheat"); [|lra].
      destruct (window_cases 40 45 8 (Z.of_nat i)) as [-> | ->]; lra.
    + intros ->. apply (np_round1_le 25). change (inject_Z 25) with 25. lra.
Qed.

Lemma weather_profile_rows_witness :
  exists w,
    App.generate_weather_profile flat_sin pi_approx "wheat" 2 init_draws = Ok w
    /\ Z.of_nat (List.length w) = 2%Z
    /\ forall (i : nat) (row : App.Weather),
         nth_error w i = Some row ->
         App.day row = Z.of_nat i
         /\ 0 <= App.rainfall row
         /\ 5 <= App.temperature row
         /\ App.temperature row <= 33
         /\ (String.eqb "wheat" "wheat" = false -> App.temperature row <= 25).
Proof.
  eexists. split; [reflexivity|].
  exact (weather_profile_rows flat_sin pi_approx "wheat" 2 init_draws _
           flat_sin_range eq_refl).
Defined.

(** ** The initial soil moisture *)

(** [initialize_soil_moisture]: with the three samples of the generator in
    the unit interval, every component lies in the range of the soil type,
    15 to 25 for sandy, 30 to 40 for clay and 20 to 30 for any other
    string. *)
Theorem initial_soil_moisture_range (soil : string) (u : App.Vec3) :
  Forall (fun x => 0 <= x /\ x <= 1) (App.vec3_list u) ->
  let lo := if String.eqb soil "sandy" then 15
            else if String.eqb soil "clay" then 30 else 20 in
  Forall (fun m => lo <= m /\ m <= lo + 10)
    (App.vec3_list (App.initialize_soil_moisture soil u)).
Proof.
  destruct u as [[a b] c]. cbn [App.vec3_list]. intros H.
  inversion H as [|? ? Ha H1]; subst. inversion H1 as [|? ? Hb H2]; subst.
  inversion H2 as [|? ? Hc _]; subst.
  unfold App.initialize_soil_moisture, App.uniform3.
  destruct (String.eqb soil "sandy"); [|destruct (String.eqb soil "clay")];
    cbn [App.vec3_map App.vec3_list]; repeat constructor; lra.
Qed.

Lemma initial_soil_moisture_range_witness :
  Forall (fun m => 30 <= m /\ m <= 30 + 10)
    (App.vec3_list
       (App.initialize_soil_moisture "clay" (0, 1 # 2, 9 # 10))).
Proof.
  apply (initial_soil_moisture_range "clay" (0, 1 # 2, 9 # 10)).
  repeat constructor; discriminate.
Defined.

(** ** What a day step does to the soil and to the crop *)

Lemma execute_actions_soil_moisture (g : App.VirtualFarm) (d : App.Decisions) :
  0 <= App.irrigation_amount d ->
  Forall (fun m => 0 <= m) (App.vec3_list (App.soil_moisture g)) ->
  Forall (fun m => 0 <= m)
    (App.vec3_list (App.soil_moisture (App.execute_actions g d))).
Proof.
  intros Hi Hg. unfold App.execute_actions.
  destruct (App.soil_moisture g) as [[a b] c] eqn:E.
  cbn [App.vec3_list] in Hg.
  inversion Hg as [|? ? Ha H1]; subst. inversion H1 as [|? ? Hb H2]; subst.
  inversion H2 as [|? ? Hc _]; subst.
  split_ifs; read_fields; rewrite ?E; cbn [App.vec3_map App.vec3_list];
    repeat constructor; lra.
Qed.

Lemma updated_soil_moisture (f : App.VirtualFarm) (today : App.Weather)
  (noise : Q) :
  Forall (fun m => 0 <= m)
    (App.vec3_list (App.soil_moisture (updated f today noise))).
Proof.
  unfold updated, App.update_pest_pressure, App.update_crop_growth,
    App.update_soil_moisture.
  split_ifs; read_fields; destruct (App.soil_moisture f) as [[a b] c];
    cbn [App.vec3_map App.vec3_list]; repeat constructor; apply Q.le_max_l.
Qed.

(** [advance_day] through [update_soil_moisture] and [execute_actions]:
    after a day step, whatever the farm was before and whatever the draws,
    no component of the soil moisture is negative. *)
Theorem soil_moisture_nonnegative_after_day (f f' : App.VirtualFarm)
  (d : App.TickDraws) :
  App.advance_day f d = Ok (f', true) ->
  Forall (fun m => 0 <= m) (App.vec3_list (App.soil_moisture f')).
Proof.
  unfold App.advance_day. destruct (_ <=? _)%Z; [discriminate|].
  intros H. apply bind_ok in H. destruct H as (g & Ht & H).
  injection H as <-. apply tick_inv in Ht.
  destruct Ht as (today & nodes & sd & c & r & _ & _ & ->).
  pose proof (updated_soil_moisture f today (App.moisture_noise d)) as Hu.
  unfold acted. cbv zeta.
  generalize dependent (updated f today (App.moisture_noise d)). intros u Hu.
  read_fields. apply execute_actions_soil_moisture.
  - apply decision_amounts_nonneg.
  - exact Hu.
Qed.

Lemma soil_moisture_nonnegative_after_day_witness :
  exists f0 f1,
    small_farm = Ok f0
    /\ App.advance_day f0 (tick_draws 0) = Ok (f1, true)
    /\ Forall (fun m => 0 <= m) (App.vec3_list (App.soil_moisture f1)).
Proof.
  eexists. eexists. split; [reflexivity|].
  assert (H : App.advance_day
                (App.mkFarm 2 "wheat" "loam" 2 0%Z 0%Z
                   (App.initialize_soil_moisture "loam"
                      (App.soil_unit init_draws))
                   (App.mkNutrients 50 30 40) 0 0
                   (map (App.weather_row flat_sin pi_approx "wheat" 2
                           init_draws) (seq 0 (Z.to_nat 2)))
                   0 0 0 0 (App.mkCosts 0 0 0 0) 0
                   (App.initialize_network 2 init_draws))
                (tick_draws 0)
              = Ok (_, true)) by (vm_compute; reflexivity).
  split; [exact H|].
  exact (soil_moisture_nonnegative_after_day _ _ _ H).
Defined.



(** ** The decision engine *)



(** ** The sensor nodes *)

Lemma measure_cases (farm : App.VirtualFarm) (n n' : App.SensorNode)
  (d : App.NodeDraws) (r : option Q) :
  App.measure farm n d = Ok (n', r) ->
  (App.node_id n', App.sensor_type n', App.position n')
  = (App.node_id n, App.sensor_type n, App.position n)
  /\ (App.operational n = false -> n' = n /\ r = None)
  /\ (forall v, r = Some v ->
        0 <= v
        /\ (App.sensor_type n = App.pest_sensor -> v <= 100)
        /\ App.operational n' = true
        /\ App.battery n' = App.battery n - App.battery_drain d)
  /\ (App.operational n = true -> r = None -> App.operational n' = false).
Proof.
  unfold App.measure. destruct (App.operational n) eqn:Eop; cbn [negb].
  - destruct (Qltb (App.fault_roll d) (5 # 1000)).
    + intros H. injection H as <- <-. cbn.
      split; [reflexivity|]. split; [discriminate|].
      split; [discriminate|reflexivity].
    + cbn [App.sensor_type].
      destruct (App.sensor_type n) eqn:Et.
      * intros H. apply bind_ok in H. destruct H as (tv & _ & H).
        injection H as <- <-. cbn.
        split; [reflexivity|]. split; [discriminate|].
        split; [|discriminate].
        intros v E. injection E as <-.
        split; [apply Q.le_max_l|]. split; [discriminate|].
        split; reflexivity.
      * intros H. injection H as <- <-. cbn.
        split; [reflexivity|]. split; [discriminate|].
        split; [|discriminate].
        intros v E. injection E as <-.
        split; [apply Q.le_max_l|]. split; [discriminate|].
        split; reflexivity.
      * intros H. injection H as <- <-. cbn.
        split; [reflexivity|]. split; [discriminate|].
        split; [|discriminate].
        intros v E. injection E as <-.
        split; [apply Q.le_max_l|]. split.
        { intros _. apply Q.max_lub; [discriminate | apply Q.le_min_l]. }
        split; reflexivity.
  - intros H. injection H as <- <-.
    split; [reflexivity|]. split; [auto|]. split; discriminate.
Qed.

(** [SensorNode.measure]: a node that is not operational returns [None] and
    is left as it was; a value that is returned is never negative, at most
    100 from a pest sensor, and comes from a node that stays operational,
    with its battery lowered by the drain drawn; a node that is operational
    and returns [None] has failed; the identifier, the type and the
    position of the node never change. *)
Theorem measure_result (farm : App.VirtualFarm) (n n' : App.SensorNode)
  (d : App.NodeDraws) (r : option Q) :
  App.measure farm n d = Ok (n', r) ->
  (App.node_id n', App.sensor_type n', App.position n')
  = (App.node_id n, App.sensor_type n, App.position n)
  /\ (App.operational n = false -> n' = n /\ r = None)
  /\ (forall v, r = Some v ->
        0 <= v
        /\ (App.sensor_type n = App.pest_sensor -> v <= 100)
        /\ App.operational n' = true
        /\ App.battery n' = App.battery n - App.battery_drain d)
  /\ (App.operational n = true -> r = None -> App.operational n' = false).
Proof. apply measure_cases. Qed.

Lemma measure_result_witness :
  exists n' v,
    App.measure ripening_farm (App.new_node init_draws 2) node_draw
    = Ok (n', Some v)
    /\ 0 <= v /\ v <= 100.
Proof.
  eexists. eexists.
  assert (H : App.measure ripening_farm (App.new_node init_draws 2) node_draw
              = Ok (_, Some _)) by reflexivity.
  split; [exact H|].
  destruct (measure_result _ _ _ _ _ H) as (_ & _ & Hv & _).
  destruct (Hv _ eq_refl) as (H0 & H100 & _).
  split; [exact H0 | exact (H100 eq_refl)].
Defined.

(** ** The sensor network *)

Lemma Qsum_le (c : Q) (l : list Q) :
  Forall (fun v => v <= c) l ->
  Qsum l <= c * inject_Z (Z.of_nat (List.length l)).
Proof.
  induction 1 as [|v l Hv _ IH].
  - unfold Qsum. cbn [fold_right List.length Z.of_nat].
    change (inject_Z 0) with 0. lra.
  - change (Qsum (v :: l)) with (v + Qsum l).
    change (List.length (v :: l)) with (S (List.length l)).
    rewrite Nat2Z.inj_succ. unfold Z.succ. rewrite inject_Z_plus.
    change (inject_Z 1) with 1. lra.
Qed.

Lemma mean_val_le (c : Q) (l : list Q) :
  l <> [] -> Forall (fun v => v <= c) l -> mean_val l <= c.
Proof.
  intros Hne H. unfold mean_val.
  apply Qle_shift_div_r.
  - change 0 with (inject_Z 0). rewrite <- Zlt_Qlt.
    destruct l; [contradiction | cbn [List.length]; lia].
  - apply Qsum_le. exact H.
Qed.

Lemma var_val_nonneg (l : list Q) : 0 <= var_val l.
Proof.
  unfold var_val. apply mean_val_nonneg. apply Forall_forall.
  intros y Hy. apply in_map_iff in Hy. destruct Hy as (x & <- & _).
  set (t := x - mean_val l).
  destruct (Qlt_le_dec t 0) as [Hneg|Hpos].
  - assert (H : 0 <= (- t) * (- t)) by (apply Qmult_le_0_compat; lra).
    setoid_replace (t * t) with ((- t) * (- t)) by ring. exact H.
  - apply Qmult_le_0_compat; assumption.
Qed.

Lemma record_value_ok (m : App.Measurements) (t : App.SensorType) (v : Q) :
  readings_ok m -> 0 <= v -> (t = App.pest_sensor -> v <= 100) ->
  readings_ok (App.record_value m t v).
Proof.
  intros (Hs & Hn & Hp) H0 H100. unfold readings_ok, App.record_value.
  destruct t; cbn [App.m_soil_moisture App.m_nutrient App.m_pest];
    repeat split; try assumption; apply Forall_app; split; try assumption;
    repeat constructor; auto.
Qed.

Lemma collect_loop_result (farm : App.VirtualFarm)
  (draws : nat -> App.NodeDraws) (nodes : list App.SensorNode) :
  forall (i : nat) (m : App.Measurements)
         (r : list App.SensorNode * App.Measurements),
    App.collect_loop farm draws i nodes m = Ok r ->
    readings_ok m ->
    map node_key (fst r) = map node_key nodes /\ readings_ok (snd r).
Proof.
  induction nodes as [|n rest IH]; intros i m r H Hm; cbn [App.collect_loop] in H.
  - injection H as <-. split; [reflexivity|exact Hm].
  - apply bind_ok in H. destruct H as ([n1 v] & Hmeas & H).
    apply bind_ok in H. destruct H as (r' & Hrest & H). injection H as <-.
    cbn [fst snd] in *.
    destruct (measure_cases _ _ _ _ _ Hmeas) as (Hkey & _ & Hv & _).
    injection Hkey as Hid Hty Hpos.
    assert (Hm1 : readings_ok
                    match v with
                    | Some value => App.record_value m (App.sensor_type n1) value
                    | None => m
                    end).
    { destruct v as [value|]; [|exact Hm].
      destruct (Hv value eq_refl) as (H0 & H100 & _).
      apply record_value_ok; [exact Hm | exact H0 |].
      intros E. apply H100. rewrite <- Hty. exact E. }
    destruct (IH _ _ _ Hrest Hm1) as (Hkeys & Hok).
    split; [|exact Hok].
    cbn [map]. rewrite Hkeys. f_equal.
    unfold node_key. destruct (_ && _); cbn [App.maintain App.node_id
      App.sensor_type App.position]; congruence.
Qed.

Lemma summarize_ranges (m : App.Measurements) :
  readings_ok m ->
  0 <= App.soil_moisture_avg (App.summarize m)
  /\ 0 <= App.soil_moisture_var (App.summarize m)
  /\ 0 <= App.soil_N (App.summarize m)
  /\ 0 <= App.sd_pest_pressure (App.summarize m)
  /\ App.sd_pest_pressure (App.summarize m) <= 1.
Proof.
  intros (Hs & Hn & Hp). unfold App.summarize.
  cbn [App.soil_moisture_avg App.soil_moisture_var App.soil_N
       App.sd_pest_pressure].
  split; [destruct (App.m_soil_moisture m);
          [apply Qle_refl | apply mean_val_nonneg; exact Hs]|].
  split; [destruct (App.m_soil_moisture m);
          [apply Qle_refl | apply var_val_nonneg]|].
  split; [destruct (App.m_nutrient m);
          [apply Qle_refl | apply mean_val_nonneg; exact Hn]|].
  destruct (App.m_pest m) as [|v l] eqn:E; [split; discriminate|].
  assert (H0 : 0 <= mean_val (v :: l)).
  { apply mean_val_nonneg. eapply Forall_impl; [|exact Hp].
    intros a [Ha _]. exact Ha. }
  assert (H1 : mean_val (v :: l) <= 100).
  { apply mean_val_le; [discriminate|]. eapply Forall_impl; [|exact Hp].
    intros a [_ Ha]. exact Ha. }
  split.
  - apply Qle_shift_div_l; [reflexivity | lra].
  - apply Qle_shift_div_r; [reflexivity | lra].
Qed.

(** [SensorNetwork.collect_data]: when it returns, the farm is the one it
    was given with the nodes replaced, node by node with the same
    identifier, type and position, and the observation it returns is within
    the physical ranges: no average, variance or nitrogen level is negative
    and the pest pressure lies between 0 and 1. *)
Theorem collect_data_observation (f f' : App.VirtualFarm)
  (draws : nat -> App.NodeDraws) (sd : App.SensorData) :
  App.collect_data f draws = Ok (f', sd) ->
  f' = App.set_sensor_network f (App.sensor_network f')
  /\ map node_key (App.sensor_network f') = map node_key (App.sensor_network f)
  /\ 0 <= App.soil_moisture_avg sd
  /\ 0 <= App.soil_moisture_var sd
  /\ 0 <= App.soil_N sd
  /\ 0 <= App.sd_pest_pressure sd
  /\ App.sd_pest_pressure sd <= 1.
Proof.
  unfold App.collect_data. intros H.
  apply bind_ok in H. destruct H as (r & Hr & H). injection H as <- <-.
  destruct (collect_loop_result _ _ _ _ _ _ Hr) as (Hkeys & Hok).
  { repeat split; constructor. }
  split; [reflexivity|]. split; [exact Hkeys|].
  apply summarize_ranges. exact Hok.
Qed.

Lemma collect_data_observation_witness :
  exists f0 f' sd,
    small_farm = Ok f0
    /\ App.collect_data f0 (fun _ => node_draw) = Ok (f', sd)
    /\ map node_key (App.sensor_network f') = map node_key (App.sensor_network f0)
    /\ 0 <= App.sd_pest_pressure sd /\ App.sd_pest_pressure sd <= 1.
Proof.
  eexists. eexists. eexists. split; [reflexivity|].
  assert (H : App.collect_data
                (App.mkFarm 2 "wheat" "loam" 2 0%Z 0%Z
                   (App.initialize_soil_moisture "loam"
                      (App.soil_unit init_draws))
                   (App.mkNutrients 50 30 40) 0 0
                   (map (App.weather_row flat_sin pi_approx "wheat" 2
                           init_draws) (seq 0 (Z.to_nat 2)))
                   0 0 0 0 (App.mkCosts 0 0 0 0) 0
                   (App.initialize_network 2 init_draws))
                (fun _ => node_draw)
              = Ok (_, _)) by (vm_compute; reflexivity).
  split; [exact H|].
  destruct (collect_data_observation _ _ _ _ H)
    as (_ & Hk & _ & _ & _ & H0 & H1).
  split; [exact Hk|]. split; assumption.
Defined.

Lemma collect_loop_all_down (farm : App.VirtualFarm)
  (draws : nat -> App.NodeDraws) (nodes : list App.SensorNode) :
  Forall (fun n => App.operational n = false) nodes ->
  forall (i : nat) (m : App.Measurements),
  exists nodes', App.collect_loop farm draws i nodes m = Ok (nodes', m).
Proof.
  induction 1 as [|n rest Hn _ IH]; intros i m; cbn [App.collect_loop].
  - eauto.
  - unfold App.measure. rewrite Hn. cbn [negb bind fst snd].
    destruct (IH (S i) m) as (nodes' & ->). cbn [bind fst snd]. eauto.
Qed.

(** [SensorNetwork.collect_data] without readings: when no node is
    operational (in particular on a network without nodes) it raises
    nothing and every field of the observation is the default 0, whatever
    the draws; the nodes repaired during the call change nothing of it. *)
Theorem collect_data_without_readings (f : App.VirtualFarm)
  (draws : nat -> App.NodeDraws) :
  Forall (fun n => App.operational n = false) (App.sensor_network f) ->
  exists nodes',
    App.collect_data f draws
    = Ok (App.set_sensor_network f nodes', App.mkSensorData 0 0 0 0).
Proof.
  intros H. unfold App.collect_data.
  destruct (collect_loop_all_down f draws _ H 0%nat (App.mkMeasurements [] [] []))
    as (nodes' & ->).
  cbn [bind fst snd]. exists nodes'. reflexivity.
Qed.

Lemma collect_data_without_readings_witness :
  exists nodes',
    App.collect_data ripening_farm (fun _ => node_draw)
    = Ok (App.set_sensor_network ripening_farm nodes',
          App.mkSensorData 0 0 0 0).
Proof.
  apply (collect_data_without_readings ripening_farm (fun _ => node_draw)).
  constructor.
Defined.

(** [SensorNetwork.calculate_uptime] on a network with at least one node:
    it raises nothing and returns a percentage, 100 when every node is
    operational and 0 when none is. *)
Theorem uptime_is_a_percentage (nodes : list App.SensorNode) :
  nodes <> [] ->
  exists u,
    App.calculate_uptime nodes = Ok u
    /\ 0 <= u /\ u <= 100
    /\ (Forall (fun n => App.operational n = true) nodes -> u == 100)
    /\ (Forall (fun n => App.operational n = false) nodes -> u == 0).
Proof.
  intros Hne. destruct (calculate_uptime_range nodes Hne) as (u & Hu & H0 & H1).
  exists u. split; [exact Hu|]. split; [exact H0|]. split; [exact H1|].
  unfold App.calculate_uptime in Hu.
  assert (Hpos : 0 < inject_Z (Z.of_nat (List.length nodes))).
  { change 0 with (inject_Z 0). rewrite <- Zlt_Qlt.
    destruct nodes; [contradiction | cbn [List.length]; lia]. }
  rewrite py_div_ok in Hu by (intros E; rewrite E in Hpos; discriminate).
  cbn [bind] in Hu. injection Hu as <-. split; intros Hall.
  - assert (E : filter App.operational nodes = nodes).
    { clear Hne H0 H1 Hpos. induction Hall as [|n l Hn _ IH]; cbn.
      - reflexivity.
      - rewrite Hn, IH. reflexivity. }
    rewrite E. field. intros E0. rewrite E0 in Hpos. discriminate.
  - assert (E : filter App.operational nodes = []).
    { clear Hne H0 H1 Hpos. induction Hall as [|n l Hn _ IH]; cbn.
      - reflexivity.
      - rewrite Hn, IH. reflexivity. }
    rewrite E. cbn [List.length]. unfold Qdiv. ring.
Qed.

Lemma uptime_is_a_percentage_witness :
  exists u,
    App.calculate_uptime (App.initialize_network 2 init_draws) = Ok u
    /\ 0 <= u /\ u <= 100
    /\ (Forall (fun n => App.operational n = true)
          (App.initialize_network 2 init_draws) -> u == 100)
    /\ (Forall (fun n => App.operational n = false)
          (App.initialize_network 2 init_draws) -> u == 0).
Proof.
  apply (uptime_is_a_percentage (App.initialize_network 2 init_draws)).
  vm_compute. discriminate.
Defined.

(** ** Calendar, revenue and labor cost along a run *)













(** ** The report and the driver of the weather-driven engine *)





Lemma size_divisor (s c : Q) : ~ s == 0 -> 0 < c -> ~ s * c == 0.
Proof.
  intros Hs Hc H. apply Hs.
  destruct (Qmult_integral _ _ H) as [E|E]; [exact E|]. lra.
Qed.

Lemma calculate_roi_total (f : App.VirtualFarm) :
  exists q, App.calculate_roi f = Ok q.
Proof.
  unfold App.calculate_roi. destruct (Qltb 0 (App.total_cost f)) eqn:E;
    [|eauto].
  apply Qltb_lt in E.
  rewrite py_div_ok by (intros H; rewrite H in E; discriminate).
  cbn [bind]. eauto.
Qed.

Lemma generate_report_total (f : App.VirtualFarm) :
  ~ App.size f == 0 -> App.sensor_network f <> [] ->
  exists r, App.generate_report f = Ok r
            /\ 0 <= App.sensor_uptime r /\ App.sensor_uptime r <= 100.
Proof.
  intros Hs Hne. unfold App.generate_report.
  rewrite !py_div_ok by (apply size_divisor; [exact Hs | reflexivity]).
  cbn [bind].
  destruct (calculate_roi_total f) as [q Hq]. rewrite Hq. cbn [bind].
  destruct (calculate_uptime_range _ Hne) as (u & Hu & H0 & H1).
  rewrite Hu. cbn [bind]. eexists. split; [reflexivity|].
  cbn [App.sensor_uptime]. split.
  - apply (py_round_ge 0). exact H0.
  - apply (py_round_le 100). exact H1.
Qed.

Lemma generate_report_empty (f : App.VirtualFarm) :
  ~ App.size f == 0 -> App.sensor_network f = [] ->
  App.generate_report f = Raise ZeroDivisionError.
Proof.
  intros Hs E. unfold App.generate_report.
  rewrite !py_div_ok by (apply size_divisor; [exact Hs | reflexivity]).
  cbn [bind].
  destruct (calculate_roi_total f) as [q Hq]. rewrite Hq. cbn [bind].
  rewrite E. reflexivity.
Qed.

(** [generate_report] on a farm of a size that is not zero: with at least
    one node in the network it raises nothing and the sensor uptime it
    reports is a percentage; with an empty network it raises
    [ZeroDivisionError], at any point of a run. *)
Theorem generate_report_needs_a_node (f : App.VirtualFarm) :
  ~ App.size f == 0 ->
  (App.sensor_network f <> [] ->
   exists r, App.generate_report f = Ok r
             /\ 0 <= App.sensor_uptime r /\ App.sensor_uptime r <= 100)
  /\ (App.sensor_network f = [] ->
      App.generate_report f = Raise ZeroDivisionError).
Proof.
  intros Hs. split.
  - apply generate_report_total. exact Hs.
  - apply generate_report_empty. exact Hs.
Qed.

Lemma generate_report_needs_a_node_witness :
  App.generate_report ripening_farm = Raise ZeroDivisionError.
Proof.
  apply (proj2 (generate_report_needs_a_node ripening_farm
                  ltac:(discriminate))).
  reflexivity.
Defined.





(** ** The simpler engine, day by day *)

(** [simulate_day] through [np.clip]: after a day, whatever the farm was
    before and whatever the draws, the moisture array has the length it had
    and every component lies between 0 and 1. *)
Theorem sim_soil_moisture_clipped (f : Simulation.VirtualFarm)
  (d : Simulation.DayDraws) :
  List.length (Simulation.soil_moisture (fst (Simulation.simulate_day f d)))
  = List.length (Simulation.soil_moisture f)
  /\ Forall (fun m => 0 <= m /\ m <= 1)
       (Simulation.soil_moisture (fst (Simulation.simulate_day f d))).
Proof.
  unfold Simulation.simulate_day. cbn [fst Simulation.soil_moisture]. split.
  - destruct (match np_mean _ with Some _ => _ | None => _ end);
      rewrite ?length_map; reflexivity.
  - apply Forall_forall. intros x Hx. apply in_map_iff in Hx.
    destruct Hx as (y & <- & _). apply np_clip_unit.
Qed.

Lemma sim_growth_rate_nonneg (a n p : Q) :
  0 <= a -> 0 <= n -> p <= 1 ->
  0 <= a * (4 # 10) + n / 100 * (3 # 10) + (1 - p) * (3 # 10).
Proof.
  intros Ha Hn Hp.
  assert (0 <= n / 100) by (apply Qle_shift_div_l; [reflexivity|lra]).
  lra.
Qed.

Lemma sim_growth_step (f : Simulation.VirtualFarm) (d : Simulation.DayDraws) :
  sim_ok f ->
  Simulation.crop_growth_stage f
  <= Simulation.crop_growth_stage (fst (Simulation.simulate_day f d)).
Proof.
  intros ((Hp0 & Hp1) & (Hg0 & Hg1) & Hn & Hm).
  unfold Simulation.simulate_day. cbn [fst Simulation.crop_growth_stage].
  unfold np_mean. destruct (Simulation.soil_moisture f) as [|m l] eqn:E;
    [exact Hg1|].
  pose proof (mean_val_nonneg (m :: l) Hm) as Ha.
  pose proof (Q.le_max_l 0
                (Simulation.nutr_N (Simulation.soil_nutrients f)
                 - (3 # 10) * Simulation.crop_growth_stage f)) as Hmax.
  set (n1 := Qmax 0 _) in *.
  assert (Hn2 : 0 <= (if Qltb n1 20 then n1 + 10 else n1))
    by (destruct (Qltb n1 20); lra).
  pose proof (np_clip_unit
                (Simulation.pest_pressure f + Simulation.pest_change d))
    as [_ Hc1].
  pose proof (sim_growth_rate_nonneg _ _ _ Ha Hn2 Hc1) as Hrate.
  apply Q.min_glb; lra.
Qed.

(** [simulate_day] on the growth stage: along every run from a farm the
    constructor makes, with the moisture samples in their support, a day
    never lowers the growth stage. *)
Theorem sim_growth_never_decreases (size : Z) (crop : string) (days : Z)
  (moisture : nat -> Q) (f0 : Simulation.VirtualFarm)
  (draws : nat -> Simulation.DayDraws) (n : nat) :
  Simulation.create size crop days moisture = Ok f0 ->
  (forall k, (k < Z.to_nat size)%nat ->
             Simulation.moisture_in_support (moisture k)) ->
  Simulation.crop_growth_stage (Simulation.run n f0 draws)
  <= Simulation.crop_growth_stage (Simulation.run (S n) f0 draws).
Proof.
  intros Hc Hs. cbn [Simulation.run]. unfold Simulation.advance_day.
  apply sim_growth_step. apply sim_run_ok.
  eapply sim_create_ok; eauto.
Qed.

Lemma one_day_farm_support (k : nat) :
  (k < Z.to_nat 1)%nat -> Simulation.moisture_in_support (3 # 10).
Proof. intros _. split; discriminate. Defined.

Lemma sim_growth_never_decreases_witness :
  exists f0,
    one_day_farm = Ok f0
    /\ Simulation.crop_growth_stage (Simulation.run 2 f0 day_draws)
       <= Simulation.crop_growth_stage (Simulation.run 3 f0 day_draws).
Proof.
  eexists. split; [reflexivity|].
  exact (sim_growth_never_decreases 1 "wheat" 1 (fun _ => 3 # 10) _ day_draws 2
           eq_refl one_day_farm_support).
Defined.

Lemma simulate_day_nitrogen (f : Simulation.VirtualFarm)
  (d : Simulation.DayDraws) :
  nitrogen_ok f -> nitrogen_ok (fst (Simulation.simulate_day f d)).
Proof.
  intros (Hok & H20 & H50). split; [apply simulate_day_ok; exact Hok|].
  destruct Hok as (_ & (Hg0 & Hg1) & _).
  unfold Simulation.simulate_day.
  cbn [fst Simulation.soil_nutrients Simulation.nutr_N].
  pose proof (Q.le_max_r 0
                (Simulation.nutr_N (Simulation.soil_nutrients f)
                 - (3 # 10) * Simulation.crop_growth_stage f)) as Hlo.
  assert (Hhi : Qmax 0
                  (Simulation.nutr_N (Simulation.soil_nutrients f)
                   - (3 # 10) * Simulation.crop_growth_stage f) <= 50)
    by (apply Q.max_lub; lra).
  set (n1 := Qmax 0 _) in *.
  destruct (Qltb n1 20) eqn:E.
  - apply Qltb_lt in E. lra.
  - apply Qltb_ge in E. lra.
Qed.

(** [simulate_day] on the nitrogen: along every run from a farm the
    constructor makes, with the moisture samples in their support, the soil
    nitrogen stays between 20 and 50 ppm, so that the clamp at 0 never
    acts. *)
Theorem sim_nitrogen_range (size : Z) (crop : string) (days : Z)
  (moisture : nat -> Q) (f0 : Simulation.VirtualFarm)
  (draws : nat -> Simulation.DayDraws) (n : nat) :
  Simulation.create size crop days moisture = Ok f0 ->
  (forall k, (k < Z.to_nat size)%nat ->
             Simulation.moisture_in_support (moisture k)) ->
  20 <= Simulation.nutr_N
          (Simulation.soil_nutrients (Simulation.run n f0 draws))
  /\ Simulation.nutr_N
       (Simulation.soil_nutrients (Simulation.run n f0 draws)) <= 50.
Proof.
  intros Hc Hs.
  assert (H0 : nitrogen_ok f0).
  { split; [eapply sim_create_ok; eauto|].
    unfold Simulation.create in Hc. destruct (size <? 0)%Z; [discriminate|].
    injection Hc as <-. cbn. split; [discriminate | apply Qle_refl]. }
  assert (H : nitrogen_ok (Simulation.run n f0 draws)).
  { induction n as [|n IH]; cbn [Simulation.run]; [exact H0|].
    unfold Simulation.advance_day. apply simulate_day_nitrogen. exact IH. }
  apply H.
Qed.

Lemma sim_nitrogen_range_witness :
  exists f0,
    one_day_farm = Ok f0
    /\ 20 <= Simulation.nutr_N
               (Simulation.soil_nutrients (Simulation.run 3 f0 day_draws))
    /\ Simulation.nutr_N
         (Simulation.soil_nutrients (Simulation.run 3 f0 day_draws)) <= 50.
Proof.
  eexists. split; [reflexivity|].
  exact (sim_nitrogen_range 1 "wheat" 1 (fun _ => 3 # 10) _ day_draws 3
           eq_refl one_day_farm_support).
Defined.



Lemma simulate_day_log (f : Simulation.VirtualFarm) (d : Simulation.DayDraws) :
  log_ok f -> log_ok (fst (Simulation.simulate_day f d)).
Proof.
  intros (Hlen & Hw). unfold log_ok, Simulation.simulate_day.
  cbn [fst Simulation.daily_logs Simulation.day_counter Simulation.water_used
       Simulation.irrigation_applied].
  rewrite length_app, Hw. cbn [List.length]. split; [lia|].
  destruct (match np_mean _ with Some _ => _ | None => _ end); reflexivity.
Qed.

Lemma sim_run_log (f0 : Simulation.VirtualFarm)
  (draws : nat -> Simulation.DayDraws) (n : nat) :
  log_ok f0 -> log_ok (Simulation.run n f0 draws).
Proof.
  intros H0. induction n as [|n IH]; cbn [Simulation.run]; [exact H0|].
  unfold Simulation.advance_day. apply simulate_day_log. exact IH.
Qed.

(** [simulate_day] on the log: along a run from a farm the constructor
    makes, after [n] calls of [advance_day] the day counter is [n], the log
    has [n] entries and water used equals irrigation applied; the call that
    follows appends one entry, which records the day counter, the
    nitrogen, the pest pressure, the growth stage, the water used and the
    fertilizer applied of the farm after that call. *)
Theorem sim_log_follows_run (size : Z) (crop : string) (days : Z)
  (moisture : nat -> Q) (f0 : Simulation.VirtualFarm)
  (draws : nat -> Simulation.DayDraws) (n : nat) :
  Simulation.create size crop days moisture = Ok f0 ->
  let f := Simulation.run n f0 draws in
  let f' := Simulation.run (S n) f0 draws in
  Simulation.day_counter f = Z.of_nat n
  /\ List.length (Simulation.daily_logs f) = n
  /\ Simulation.water_used f = Simulation.irrigation_applied f
  /\ exists e,
       Simulation.daily_logs f' = Simulation.daily_logs f ++ [e]
       /\ Simulation.log_day e = Simulation.day_counter f'
       /\ Simulation.log_soil_N e
          = Simulation.nutr_N (Simulation.soil_nutrients f')
       /\ Simulation.log_pest_pressure e = Simulation.pest_pressure f'
       /\ Simulation.log_crop_growth e = Simulation.crop_growth_stage f'
       /\ Simulation.log_water_used e = Simulation.water_used f'
       /\ Simulation.log_fertilizer e = Simulation.fertilizer_applied f'.
Proof.
  intros Hc. cbv zeta.
  assert (H0 : log_ok f0 /\ Simulation.day_counter f0 = 0%Z).
  { unfold Simulation.create in Hc. destruct (size <? 0)%Z; [discriminate|].
    injection Hc as <-. repeat split. }
  destruct H0 as (Hlog0 & Hday0).
  assert (Hday : forall m,
             Simulation.day_counter (Simulation.run m f0 draws) = Z.of_nat m).
  { induction m as [|m IH]; [exact Hday0|].
    cbn [Simulation.run]. unfold Simulation.advance_day, Simulation.simulate_day.
    cbn [fst Simulation.day_counter]. rewrite IH. lia. }
  destruct (sim_run_log f0 draws n Hlog0) as (Hlen & Hw).
  split; [apply Hday|]. split; [rewrite Hday in Hlen; lia|].
  split; [exact Hw|].
  cbn [Simulation.run]. unfold Simulation.advance_day, Simulation.simulate_day.
  cbn [fst Simulation.daily_logs]. eexists. split; [reflexivity|].
  repeat split.
Qed.

Lemma sim_log_follows_run_witness :
  exists f0,
    one_day_farm = Ok f0
    /\ Simulation.day_counter (Simulation.run 2 f0 day_draws) = Z.of_nat 2
    /\ List.length (Simulation.daily_logs (Simulation.run 2 f0 day_draws))
       = 2%nat.
Proof.
  eexists. split; [reflexivity|].
  destruct (sim_log_follows_run 1 "wheat" 1 (fun _ => 3 # 10) _ day_draws 2
              eq_refl) as (Hd & Hl & _).
  split; [exact Hd | exact Hl].
Defined.

(** ** The simpler engine: report and driver *)

Lemma sim_run_frame (f0 : Simulation.VirtualFarm)
  (draws : nat -> Simulation.DayDraws) (n : nat) :
  Simulation.size (Simulation.run n f0 draws) = Simulation.size f0
  /\ Simulation.simulation_days (Simulation.run n f0 draws)
     = Simulation.simulation_days f0
  /\ Simulation.day_counter (Simulation.run n f0 draws)
     = (Simulation.day_counter f0 + Z.of_nat n)%Z.
Proof.
  induction n as [|n (IHs & IHd & IHc)]; cbn [Simulation.run].
  - split; [reflexivity|]. split; [reflexivity | lia].
  - unfold Simulation.advance_day, Simulation.simulate_day.
    cbn [fst Simulation.size Simulation.simulation_days Simulation.day_counter].
    split; [exact IHs|]. split; [exact IHd | lia].
Qed.

(** [generate_report] after any number of days: along every run from a farm
    the constructor makes, with the moisture samples in their support, the
    report gives a growth stage and a pest pressure between 0 and 1, a
    nitrogen level between 20 and 50, and an estimated yield between 0 and
    1000 kg per hectare; the rounding never leaves these ranges. *)
Theorem sim_report_ranges (size : Z) (crop : string) (days : Z)
  (moisture : nat -> Q) (f0 : Simulation.VirtualFarm)
  (draws : nat -> Simulation.DayDraws) (n : nat) :
  Simulation.create size crop days moisture = Ok f0 ->
  (forall k, (k < Z.to_nat size)%nat ->
             Simulation.moisture_in_support (moisture k)) ->
  let r := Simulation.generate_report (Simulation.run n f0 draws) in
  in_unit (Simulation.final_crop_growth r)
  /\ in_unit (Simulation.final_pest_pressure r)
  /\ (20 <= Simulation.final_soil_N_ppm r
      /\ Simulation.final_soil_N_ppm r <= 50)
  /\ (0 <= Simulation.estimated_yield_kg r <= 1000 * size)%Z.
Proof.
  intros Hc Hs. cbv zeta.
  assert (H0 : nitrogen_ok f0 /\ Simulation.size f0 = size /\ (0 <= size)%Z).
  { split; [split; [eapply sim_create_ok; eauto|]|];
      unfold Simulation.create in Hc;
      destruct (size <? 0)%Z eqn:E; try discriminate;
      injection Hc as <-; cbn.
    - split; [discriminate | apply Qle_refl].
    - split; [reflexivity | lia]. }
  destruct H0 as (Hn0 & Hsz & Hpos).
  assert (H : nitrogen_ok (Simulation.run n f0 draws)).
  { clear Hc Hs Hsz. induction n as [|n IH]; cbn [Simulation.run]; [exact Hn0|].
    unfold Simulation.advance_day. apply simulate_day_nitrogen. exact IH. }
  destruct (sim_run_frame f0 draws n) as (Hsize & _).
  destruct H as (((Hp0 & Hp1) & (Hg0 & Hg1) & _) & H20 & H50).
  unfold Simulation.generate_report, in_unit.
  cbn [Simulation.final_crop_growth Simulation.final_pest_pressure
       Simulation.final_soil_N_ppm Simulation.estimated_yield_kg].
  rewrite Hsize, Hsz.
  set (g := Simulation.crop_growth_stage _) in *.
  assert (Hq : 0 <= inject_Z size)
    by (change 0 with (inject_Z 0); rewrite <- Zle_Qle; exact Hpos).
  repeat split.
  - apply (py_round_ge 0). exact Hg0.
  - apply (py_round_le 1). exact Hg1.
  - apply (py_round_ge 0). exact Hp0.
  - apply (py_round_le 1). exact Hp1.
  - apply (py_round_ge 20). exact H20.
  - apply (py_round_le 50). exact H50.
  - apply rint_ge. change (inject_Z 0) with 0.
    assert (0 <= g * inject_Z size) by (apply Qmult_le_0_compat; assumption).
    lra.
  - apply rint_le. rewrite inject_Z_mult. change (inject_Z 1000) with 1000.
    assert (g * inject_Z size <= 1 * inject_Z size)
      by (apply Qmult_le_compat_r; assumption).
    lra.
Qed.

Lemma sim_report_ranges_witness :
  exists f0,
    one_day_farm = Ok f0
    /\ in_unit (Simulation.final_crop_growth
                  (Simulation.generate_report (Simulation.run 3 f0 day_draws)))
    /\ (0 <= Simulation.estimated_yield_kg
               (Simulation.generate_report (Simulation.run 3 f0 day_draws))
        <= 1000 * 1)%Z.
Proof.
  eexists. split; [reflexivity|].
  destruct (sim_report_ranges 1 "wheat" 1 (fun _ => 3 # 10) _ day_draws 3
              eq_refl one_day_farm_support) as (Hg & _ & _ & Hy).
  split; [exact Hg | exact Hy].
Defined.

Lemma sim_loop_ends (draws : nat -> Simulation.DayDraws)
  (f0 : Simulation.VirtualFarm) (fuel : nat) :
  forall k : nat,
    (1 <= fuel)%nat ->
    (Simulation.simulation_days f0 - Simulation.day_counter f0 - Z.of_nat k
     <= Z.of_nat fuel)%Z ->
    exists m : nat,
      (k < m)%nat
      /\ (Z.of_nat m
          <= Z.max (Z.of_nat k + 1)
               (Simulation.simulation_days f0 - Simulation.day_counter f0))%Z
      /\ Simulation.simulation_loop fuel (Simulation.run k f0 draws) draws k
         = Some (Simulation.run m f0 draws)
      /\ (1 <= Simulation.crop_growth_stage (Simulation.run m f0 draws)
          \/ (Simulation.simulation_days f0 - Simulation.day_counter f0
              <= Z.of_nat m)%Z).
Proof.
  induction fuel as [|fuel IH]; intros k Hf Hd; [lia|].
  cbn [Simulation.simulation_loop].
  change (fst (Simulation.advance_day (Simulation.run k f0 draws) (draws k)))
    with (Simulation.run (S k) f0 draws).
  destruct (snd _) eqn:E.
  - unfold Simulation.advance_day, Simulation.simulate_day in E.
    cbn [snd] in E. apply andb_prop in E. destruct E as (_ & E).
    destruct (sim_run_frame f0 draws k) as (_ & Hdays & Hday).
    rewrite Hdays, Hday in E. apply Z.ltb_lt in E.
    destruct (IH (S k)) as (m & Hm & Hle & Hrun & Hstop); [lia | lia |].
    exists m. split; [lia|]. split; [lia|]. split; [exact Hrun | exact Hstop].
  - exists (S k). split; [lia|]. split; [lia|]. split; [reflexivity|].
    unfold Simulation.advance_day in E.
    change (Simulation.run (S k) f0 draws)
      with (fst (Simulation.simulate_day (Simulation.run k f0 draws) (draws k))).
    destruct (sim_run_frame f0 draws k) as (_ & Hdays & Hday).
    unfold Simulation.simulate_day in *. cbn [fst snd] in *.
    cbn [Simulation.crop_growth_stage].
    apply andb_false_iff in E. destruct E as [E | E].
    + left. apply Qltb_ge in E. exact E.
    + right. rewrite Hdays, Hday in E. apply Z.ltb_ge in E. lia.
Qed.

(** [run_simulation] of the simpler engine, whatever the draws: for a size
    that is not negative and enough fuel the loop ends after [m] calls of
    [advance_day], with [m] at least 1 (also for a duration of 0 or less)
    and at most the duration; it ends because the crop is fully grown or
    the duration is reached; the report and the log returned are those of
    the farm after these [m] days, the report counts [m] days and the log
    has [m] entries. *)
Theorem sim_run_simulation_outcome (fuel : nat) (size : Z) (crop : string)
  (days : Z) (moisture : nat -> Q) (draws : nat -> Simulation.DayDraws)
  (f0 : Simulation.VirtualFarm) :
  Simulation.create size crop days moisture = Ok f0 ->
  (1 <= fuel)%nat -> (days <= Z.of_nat fuel)%Z ->
  exists m : nat,
    (1 <= m)%nat /\ (Z.of_nat m <= Z.max 1 days)%Z
    /\ Simulation.run_simulation fuel size crop days moisture draws
       = Ok (Some (Simulation.generate_report (Simulation.run m f0 draws),
                   Simulation.daily_logs (Simulation.run m f0 draws)))
    /\ Simulation.total_days
         (Simulation.generate_report (Simulation.run m f0 draws))
       = Z.of_nat m
    /\ List.length (Simulation.daily_logs (Simulation.run m f0 draws)) = m
    /\ (1 <= Simulation.crop_growth_stage (Simulation.run m f0 draws)
        \/ (days <= Z.of_nat m)%Z).
Proof.
  intros Hc Hf Hd.
  assert (H0 : log_ok f0 /\ Simulation.day_counter f0 = 0%Z
               /\ Simulation.simulation_days f0 = days).
  { unfold Simulation.create in Hc. destruct (size <? 0)%Z; [discriminate|].
    injection Hc as <-. repeat split. }
  destruct H0 as (Hlog0 & Hday0 & Hdays0).
  destruct (sim_loop_ends draws f0 fuel 0 Hf) as (m & Hm & Hle & Hrun & Hstop).
  { rewrite Hday0, Hdays0. cbn. lia. }
  rewrite Hday0, Hdays0 in Hle, Hstop.
  exists m. split; [lia|]. split; [cbn in Hle; lia|].
  unfold Simulation.run_simulation. rewrite Hc. cbn [bind].
  cbn [Simulation.run] in Hrun. rewrite Hrun.
  split; [reflexivity|].
  destruct (sim_run_frame f0 draws m) as (_ & _ & Hday).
  destruct (sim_run_log f0 draws m Hlog0) as (Hlen & _).
  unfold Simulation.generate_report. cbn [Simulation.total_days].
  split; [rewrite Hday, Hday0; lia|].
  split; [rewrite Hday, Hday0 in Hlen; lia|].
  destruct Hstop as [Hg | Hz]; [left; exact Hg | right; lia].
Qed.

Lemma sim_run_simulation_outcome_witness :
  exists f0 m,
    one_day_farm = Ok f0
    /\ (1 <= m)%nat /\ (Z.of_nat m <= Z.max 1 1)%Z
    /\ Simulation.run_simulation 1 1 "wheat" 1 (fun _ => 3 # 10) day_draws
       = Ok (Some (Simulation.generate_report (Simulation.run m f0 day_draws),
                   Simulation.daily_logs (Simulation.run m f0 day_draws))).
Proof.
  eexists.
  destruct (sim_run_simulation_outcome 1 1 "wheat" 1 (fun _ => 3 # 10)
              day_draws _ eq_refl ltac:(lia) ltac:(cbn; lia))
    as (m & Hm & Hle & Hrun & _).
  exists m. split; [reflexivity|]. split; [exact Hm|].
  split; [exact Hle | exact Hrun].
Defined.
